(** * Star-schema warehouse loader

    A shallow embedding of [src/analytics_project/etl_to_dw.py] (and of
    [normalize_payment] from [src/data_preparation/prepare_sales_data.py])
    together with the properties of the loader that the specification states.

    The program is pandas code: it works on labelled columns.  The embedding
    keeps that shape.  A [Series] is a list of (index label, value) pairs, a
    [DataFrame] is a list of column names and a list of labelled rows, and the
    operations ([getitem], [setitem], boolean indexing, [rename], [concat],
    ...) are the pandas operations with the alignment on labels that pandas
    performs.  An exception raised by Python is the result [None]. *)

From Stdlib Require Import ZArith QArith Ascii String.
From stdpp Require Import base option list gmap strings pretty sorting.

(** ** Python values held in a cell *)

(** The values [pd.read_csv] and the loader put in a cell: the float NaN that
    marks a missing field, [None] (written by [replace]), strings, integers
    and finite floats.  A finite float is represented by its value. *)
Inductive cell : Type :=
  | NaN
  | PyNone
  | Str (s : string)
  | Int (z : Z)
  | Flt (q : Q).

#[global] Instance Q_eq_dec : EqDecision Q.
Proof. solve_decision. Defined.
#[global] Instance cell_eq_dec : EqDecision cell.
Proof. solve_decision. Defined.
#[global] Instance cell_inhabited : Inhabited cell := populate NaN.

(** [pd.isna]: both NaN and [None] count as missing. *)
Definition isna (c : cell) : bool :=
  match c with
  | NaN | PyNone => true
  | _ => false
  end.

(** A Python dict literal, in insertion order. *)
Fixpoint assoc {V : Type} (k : string) (d : list (string * V)) : option V :=
  match d with
  | [] => None
  | (k', v) :: d' => if decide (k' = k) then Some v else assoc k d'
  end.

(** ** Python string helpers (ASCII text) *)

(** Python compares strings by code point; on UTF-8 bytes this is the
    byte-wise lexicographic order of [String.leb]. *)
Definition str_le (a b : string) : Prop := String.leb a b = true.

#[global] Instance str_le_dec : RelDecision str_le.
Proof. intros a b. unfold str_le. apply _. Defined.

Definition is_space (a : ascii) : bool :=
  let n := nat_of_ascii a in
  bool_decide (n = 32 ∨ (9 ≤ n ∧ n ≤ 13) ∨ (28 ≤ n ∧ n ≤ 31))%nat.

Fixpoint lstrip (s : string) : string :=
  match s with
  | String a s' => if is_space a then lstrip s' else s
  | EmptyString => EmptyString
  end.

Definition strip (s : string) : string :=
  String.rev (lstrip (String.rev (lstrip s))).

Definition lower_ascii (a : ascii) : ascii :=
  let n := nat_of_ascii a in
  if bool_decide (65 ≤ n ∧ n ≤ 90)%nat then ascii_of_nat (n + 32) else a.

Fixpoint lower (s : string) : string :=
  match s with
  | String a s' => String (lower_ascii a) (lower s')
  | EmptyString => EmptyString
  end.

(** [s.replace] of the blank by nothing. *)
Fixpoint remove_spaces (s : string) : string :=
  match s with
  | String a s' =>
      if bool_decide (a = " "%char) then remove_spaces s'
      else String a (remove_spaces s')
  | EmptyString => EmptyString
  end.

(** [s.rjust(n, "0")] of a digit string. *)
Definition zfill (n : nat) (s : string) : string :=
  String.concat EmptyString (replicate (n - String.length s) "0") +:+ s.

(** ** Timestamps *)

(** A parsed date.  The format ["%Y-%m-%d"] carries no time of day. *)
Record Timestamp : Type := mkTimestamp { year : Z; month : Z; day : Z }.

#[global] Instance Timestamp_eq_dec : EqDecision Timestamp.
Proof. solve_decision. Defined.

(** [strftime("%Y-%m-%d")] *)
Definition strftime (t : Timestamp) : string :=
  zfill 4 (pretty (year t)) +:+ "-" +:+ zfill 2 (pretty (month t))
    +:+ "-" +:+ zfill 2 (pretty (day t)).

Definition quarter (t : Timestamp) : Z := ((month t - 1) / 3 + 1)%Z.

(** Days since 1970-01-01 in the proleptic Gregorian calendar. *)
Definition days_from_civil (t : Timestamp) : Z :=
  (let y := if month t <=? 2 then year t - 1 else year t in
   let era := y / 400 in
   let yoe := y - era * 400 in
   let mp := (month t + 9) mod 12 in
   let doy := (153 * mp + 2) / 5 + day t - 1 in
   let doe := yoe * 365 + yoe / 4 - yoe / 100 + doy in
   era * 146097 + doe - 719468)%Z.

(** [dt.dayofweek]: Monday is 0, Sunday is 6 (1970-01-01 was a Thursday). *)
Definition dayofweek (t : Timestamp) : Z := ((days_from_civil t + 3) mod 7)%Z.

(** ** Labelled series and frames *)

Abbreviation label := nat.

Abbreviation Series A := (list (label * A)).

Definition index {A : Type} (s : Series A) : list label := s.*1.
Definition values {A : Type} (s : Series A) : list A := s.*2.

(** Element-wise operations keep the index. *)
Definition smap {A B : Type} (f : A → B) (s : Series A) : Series B :=
  (λ p, (p.1, f p.2)) <$> s.

Definition dropna (s : Series cell) : Series cell :=
  filter (λ p, isna p.2 = false) s.

(** [s.loc[i]] for a series with unique labels. *)
Fixpoint loc {A : Type} (i : label) (s : Series A) : option A :=
  match s with
  | [] => None
  | (j, a) :: s' => if decide (j = i) then Some a else loc i s'
  end.

(** Positional selection by a boolean mask. *)
Fixpoint mask_filter {A : Type} (m : list bool) (l : list A) : list A :=
  match m, l with
  | b :: m', x :: l' => if b then x :: mask_filter m' l' else mask_filter m' l'
  | _, _ => []
  end.

(** A row maps column names to cells; a column the row does not hold reads
    as NaN, which is what pandas stores there. *)
Abbreviation row := (gmap string cell).

Definition at_col (r : row) (c : string) : cell := default NaN (r !! c).

Record DataFrame : Type := mkFrame {
  columns : list string;
  body : list (label * row)
}.

Definition len (df : DataFrame) : nat := length (body df).

(** [df.empty]: some axis has length 0. *)
Definition is_empty (df : DataFrame) : bool :=
  bool_decide (body df = []) || bool_decide (columns df = []).

Definition count_col (c : string) (cols : list string) : nat :=
  length (filter (λ x, x = c) cols).

(** [df[c]].  A name that is absent raises [KeyError]; a name carried by
    several columns selects a frame, on which the series operations applied
    next by the loader raise: both are [None]. *)
Definition getitem (df : DataFrame) (c : string) : option (Series cell) :=
  if decide (count_col c (columns df) = 1)
  then Some ((λ p, (p.1, at_col p.2 c)) <$> body df)
  else None.

(** [df[mask]] for a mask that carries the index of [df]. *)
Definition getitem_mask (df : DataFrame) (m : Series bool) : DataFrame :=
  {| columns := columns df; body := mask_filter (values m) (body df) |}.

(** The values a series contributes to a frame with index [idx]: taken as
    they are when the two indexes are equal, re-indexed by label otherwise
    (a label the series lacks gives NaN); re-indexing a series with repeated
    labels raises. *)
Definition reindex_for_setitem (s : Series cell) (idx : list label)
  : option (list cell) :=
  if decide (index s = idx) then Some (values s)
  else if decide (NoDup (index s))
       then Some ((λ i, default NaN (loc i s)) <$> idx)
       else None.

Definition with_column (c : string) (cols : list string) : list string :=
  if decide (c ∈ cols) then cols else cols ++ [c].

(** [df[c] = s] *)
Definition setitem (c : string) (s : Series cell) (df : DataFrame)
  : option DataFrame :=
  vs ← reindex_for_setitem s (body df).*1;
  Some {| columns := with_column c (columns df);
          body := zip_with (λ p v, (p.1, <[c := v]> p.2)) (body df) vs |}.

(** [df[c] = v] for a scalar [v]. *)
Definition setitem_scalar (c : string) (v : cell) (df : DataFrame) : DataFrame :=
  {| columns := with_column c (columns df);
     body := (λ p, (p.1, <[c := v]> p.2)) <$> body df |}.

(** [df.rename(columns=mapping)] *)
Definition rename_col (mapping : list (string * string)) (c : string) : string :=
  default c (assoc c mapping).

Definition rename_row (f : string → string) (cols : list string) (r : row) : row :=
  list_to_map ((λ c, (f c, at_col r c)) <$> cols).

Definition rename (mapping : list (string * string)) (df : DataFrame) : DataFrame :=
  {| columns := rename_col mapping <$> columns df;
     body := (λ p, (p.1, rename_row (rename_col mapping) (columns df) p.2))
               <$> body df |}.

(** [df[cols]] for a list of column names. *)
Definition select (cols : list string) (df : DataFrame) : option DataFrame :=
  if decide (Forall (λ c, count_col c (columns df) = 1) cols)
  then Some {| columns := cols;
               body := (λ p, (p.1, list_to_map ((λ c, (c, at_col p.2 c)) <$> cols)))
                         <$> body df |}
  else None.

(** [s.replace(d)] on a series of strings: a cell equal to a key of [d] is
    replaced by the value stored under it. *)
Definition replace_cell (d : list (string * cell)) (c : cell) : cell :=
  match c with
  | Str s => default c (assoc s d)
  | _ => c
  end.

(** Rows relabelled 0, 1, 2, ... ([RangeIndex]). *)
Definition range_index (rs : list row) : list (label * row) :=
  imap (λ i r, (i, r)) rs.

(** [pd.concat([a, b], ignore_index=True)].  Columns are united in order of
    appearance; frames whose column lists differ must have unique column
    names, otherwise pandas raises. *)
Definition concat (a b : DataFrame) : option DataFrame :=
  if decide (columns a = columns b ∨ (NoDup (columns a) ∧ NoDup (columns b)))
  then Some {| columns := columns a ++ filter (λ c, c ∉ columns a) (columns b);
               body := range_index ((body a).*2 ++ (body b).*2) |}
  else None.

(** [s.drop_duplicates()]: the first occurrence of each value is kept. *)
Fixpoint drop_duplicates_from {A : Type} (seen : list cell) (key : A → cell)
    (l : list (label * A)) : list (label * A) :=
  match l with
  | [] => []
  | p :: l' =>
      if decide (key p.2 ∈ seen) then drop_duplicates_from seen key l'
      else p :: drop_duplicates_from (key p.2 :: seen) key l'
  end.

Definition series_drop_duplicates (s : Series cell) : Series cell :=
  drop_duplicates_from [] id s.

(** [df.drop_duplicates(subset=[c])] *)
Definition drop_duplicates (c : string) (df : DataFrame) : option DataFrame :=
  _ ← getitem df c;
  Some {| columns := columns df;
          body := drop_duplicates_from [] (λ r, at_col r c) (body df) |}.

Definition str_key (c : string) (p : label * row) : string :=
  match at_col p.2 c with
  | Str s => s
  | _ => EmptyString
  end.

Definition row_le (c : string) (p q : label * row) : Prop :=
  str_le (str_key c p) (str_key c q).

#[global] Instance row_le_dec c : RelDecision (row_le c).
Proof. intros p q. unfold row_le. apply _. Defined.

Definition is_str (c : cell) : bool :=
  match c with
  | Str _ => true
  | _ => false
  end.

(** [df.sort_values(c)] for a column of strings (the only use the loader
    makes of it); ordering cells of other types is left out: [None]. *)
Definition sort_values (c : string) (df : DataFrame) : option DataFrame :=
  col ← getitem df c;
  if forallb is_str (values col)
  then Some {| columns := columns df;
               body := merge_sort (row_le c) (body df) |}
  else None.

(** [pd.DataFrame(d)] for a dict of series that share one index. *)
Fixpoint rows_of_dict (idx : list label) (cols : list (string * list cell))
  : list (label * row) :=
  match idx with
  | [] => []
  | i :: idx' =>
      (i, list_to_map (omap (λ p, (λ v, (p.1, v)) <$> head p.2) cols))
        :: rows_of_dict idx' ((λ p, (p.1, tail p.2)) <$> cols)
  end.

Definition frame_of_dict (d : list (string * Series cell)) : DataFrame :=
  {| columns := d.*1;
     body := rows_of_dict (from_option (index ∘ snd) [] (head d))
               ((λ p, (p.1, values p.2)) <$> d) |}.

(** [s.to_frame()] of a series named [c]. *)
Definition to_frame (c : string) (s : Series cell) : DataFrame :=
  {| columns := [c]; body := (λ p, (p.1, {[ c := p.2 ]})) <$> s |}.

(** [df.columns = new]: columns are renamed by position. *)
Definition set_columns (new : list string) (df : DataFrame) : option DataFrame :=
  if decide (length new = length (columns df))
  then Some {| columns := new;
               body := (λ p, (p.1, list_to_map
                                     (zip new (at_col p.2 <$> columns df))))
                         <$> body df |}
  else None.

(** ** The warehouse connection *)

(** The persisted store: the rows of each table. *)
Abbreviation store := (gmap string (list row)).

(** A [sqlite3] connection: what is committed on disk and, while a
    transaction is open, the uncommitted state the connection sees. *)
Record connection : Type := mkConnection {
  disk : store;
  txn : option store
}.

Definition current (c : connection) : store := default (disk c) (txn c).

Definition commit (c : connection) : connection :=
  {| disk := current c; txn := None |}.

Definition rollback (c : connection) : connection :=
  {| disk := disk c; txn := None |}.

(** Statements run on a connection; [None] is a raised exception. *)
Definition db (A : Type) : Type := connection → option A * connection.

Definition db_ret {A : Type} (a : A) : db A := λ c, (Some a, c).

Definition db_bind {A B : Type} (m : db A) (k : A → db B) : db B :=
  λ c, match m c with
       | (Some a, c') => k a c'
       | (None, c') => (None, c')
       end.

Notation "m ;;; k" := (db_bind m (λ _, k))
  (at level 100, k at level 200, right associativity).

Definition TABLES : list string :=
  ["dates"; "customers"; "products"; "stores"; "campaigns"; "payment_methods";
   "sales"].

Definition create_if_not_exists (t : string) (s : store) : store :=
  match s !! t with
  | Some _ => s
  | None => <[t := []]> s
  end.

Definition create_tables (s : store) : store :=
  foldr create_if_not_exists s TABLES.

(** [cur.executescript(DDL)]: commits what is pending, then runs the
    [CREATE TABLE IF NOT EXISTS] statements outside any transaction. *)
Definition executescript_DDL : db unit :=
  λ c, (Some (), {| disk := create_tables (current c); txn := None |}).

(** [cur.execute("DELETE FROM t;")]: sqlite3 opens a transaction before the
    statement if none is open. *)
Definition execute_delete (t : string) : db unit :=
  λ c, (Some (), {| disk := disk c; txn := Some (<[t := []]> (current c)) |}).

(** [conn.commit()] *)
Definition conn_commit : db unit := λ c, (Some (), commit c).

Fixpoint for_each {A : Type} (f : A → db unit) (l : list A) : db unit :=
  match l with
  | [] => db_ret ()
  | x :: l' => f x ;;; for_each f l'
  end.

(** The [SELECT COUNT( * )] loop. *)
Definition row_counts (s : store) : list (string * nat) :=
  (λ t, (t, length (s !!! t))) <$> TABLES.

Definition report : db (list (string * nat)) :=
  λ c, (Some (row_counts (current c)), c).

(** [with sqlite3.connect(DB_PATH) as conn: ...]: the block runs on a fresh
    connection; leaving it commits, or rolls back when it raised. *)
Definition with_connection {A : Type} (block : db A) (s : store)
  : option A * store :=
  match block {| disk := s; txn := None |} with
  | (Some a, c) => (Some a, disk (commit c))
  | (None, c) => (None, disk (rollback c))
  end.

(** ** The loader *)

(** A default attribute of a synthesized dimension row: a constant, or a
    function applied to the key. *)
Inductive fill : Type :=
  | Const (v : cell)
  | Callable (f : cell → cell).

Section Loader.

(** What the pandas library does with text is taken as given: how a float
    prints, which strings [pd.to_numeric] reads as a (finite) number, and
    which strings [pd.to_datetime] accepts for the format ["%Y-%m-%d"]. *)
Variable float_repr : Q → string.
Variable to_numeric_str : string → option Q.
Variable strptime : string → option Timestamp.

(** *** Utilities *)

(** [x.astype(str)] on one cell: Python's [str]. *)
Definition astype_str (c : cell) : string :=
  match c with
  | NaN => "nan"
  | PyNone => "None"
  | Str s => s
  | Int z => pretty z
  | Flt q => float_repr q
  end.

Definition series_astype_str (s : Series cell) : Series cell :=
  smap (λ c, Str (astype_str c)) s.

(** [pd.to_numeric(errors="coerce")] on one cell; [None] is NaN. *)
Definition to_numeric (c : cell) : option Q :=
  match c with
  | NaN | PyNone => None
  | Str s => to_numeric_str s
  | Int z => Some (inject_Z z)
  | Flt q => Some q
  end.

(** The cast float64 -> int64 of [astype(int)]: truncation toward zero, and
    the smallest int64 for a value that does not fit. *)
Definition astype_int (q : Q) : Z :=
  let z := Z.quot (Qnum q) (Z.pos (Qden q)) in
  if bool_decide (- 2 ^ 63 ≤ z < 2 ^ 63)%Z then z else (- 2 ^ 63)%Z.

Definition _num (series : Series cell) (as_int : bool) : Series cell :=
  let s := smap (λ c, default 0%Q (to_numeric c)) series in
  if as_int then smap (λ q, Int (astype_int q)) s else smap Flt s.

Definition YN : list (string * Z) :=
  [("yes", 1); ("no", 0); ("1", 1); ("0", 0); ("true", 1); ("false", 0)]%Z.

Definition _yn_to_int (series : Series cell) : Series cell :=
  smap (λ c, Int (default 0%Z (assoc (lower (strip (astype_str c))) YN))) series.

(** [pd.to_datetime(s, format="%Y-%m-%d", errors="coerce")]; [None] is NaT.
    The text of a number never has the shape of the format. *)
Definition parse_date (c : cell) : option Timestamp :=
  match c with
  | Str x => strptime x
  | _ => None
  end.

Definition to_datetime (s : Series cell) : Series (option Timestamp) :=
  smap parse_date s.

Definition notna {A : Type} (s : Series (option A)) : Series bool :=
  smap (λ o, bool_decide (is_Some o)) s.

(** [dt.dt.strftime("%Y-%m-%d")]: NaT gives NaN. *)
Definition dt_strftime (dt : Series (option Timestamp)) : Series cell :=
  smap (λ o, from_option (λ t, Str (strftime t)) NaN o) dt.

(** [df.get(c, d)]: the column, or the default [d] when there is none. *)
Definition get (df : DataFrame) (c : string) (d : string)
  : option (Series cell + string) :=
  if decide (c ∈ columns df) then inl <$> getitem df c else Some (inr d).

(** [x.astype(str)] where [x] came out of [df.get]: a Python [str] has no
    attribute [astype]. *)
Definition got_astype_str (x : Series cell + string) : option (Series cell) :=
  match x with
  | inl s => Some (series_astype_str s)
  | inr _ => None
  end.

(** *** Normalizers *)

Definition CUSTOMERS_RENAME : list (string * string) :=
  [("CustomerID", "customer_id"); ("Name", "name"); ("Region", "region");
   ("JoinDate", "join_date"); ("LastPurchaseDate", "last_purchase_date");
   ("EmailOptIn", "email_opt_in")].

Definition normalize_customers (df : DataFrame) : option DataFrame :=
  let df := rename CUSTOMERS_RENAME df in
  e ← getitem df "email_opt_in";
  df ← setitem "email_opt_in" (_yn_to_int e) df;
  select ["customer_id"; "name"; "region"; "join_date"; "last_purchase_date";
          "email_opt_in"] df.

Definition PRODUCTS_RENAME : list (string * string) :=
  [("ProductID", "product_id"); ("ProductName", "product_name");
   ("Category", "category"); ("UnitPrice", "unit_price");
   ("StockLevel", "stock_level"); ("Discontinued", "discontinued")].

Definition normalize_products (df : DataFrame) : option DataFrame :=
  let df := rename PRODUCTS_RENAME df in
  u ← getitem df "unit_price";
  df ← setitem "unit_price" (_num u false) df;
  k ← getitem df "stock_level";
  df ← setitem "stock_level" (_num k true) df;
  d ← getitem df "discontinued";
  df ← setitem "discontinued" (_yn_to_int d) df;
  select ["product_id"; "product_name"; "category"; "unit_price"; "stock_level";
          "discontinued"] df.

Definition SALES_RENAME : list (string * string) :=
  [("TransactionID", "sale_id"); ("SaleDate", "date");
   ("CustomerID", "customer_id"); ("ProductID", "product_id");
   ("StoreID", "store_id"); ("CampaignID", "campaign_id");
   ("SaleAmount", "sales_amount"); ("Quantity", "quantity");
   ("PaymentMethod", "payment_method_id")].

Definition normalize_sales (df : DataFrame) : option DataFrame :=
  let df := rename SALES_RENAME df in
  d ← getitem df "date";
  let dt := to_datetime d in
  let df := getitem_mask df (notna dt) in
  df ← setitem "date" (dt_strftime dt) df;
  q ← getitem df "quantity";
  df ← setitem "quantity" (_num q true) df;
  a ← getitem df "sales_amount";
  df ← setitem "sales_amount" (_num a false) df;
  s ← get df "store_id" "UNKNOWN-STORE" ≫= got_astype_str;
  df ← setitem "store_id"
         (smap (replace_cell [(EmptyString, Str "UNKNOWN-STORE")]) s) df;
  p ← get df "payment_method_id" "UNKNOWN" ≫= got_astype_str;
  df ← setitem "payment_method_id"
         (smap (replace_cell [(EmptyString, Str "UNKNOWN")]) p) df;
  c ← getitem df "campaign_id";
  df ← setitem "campaign_id"
         (smap (replace_cell [(EmptyString, PyNone); ("nan", PyNone)])
               (series_astype_str c)) df;
  Some df.

(** [normalize_payment] of the upstream cleaning script
    ([prepare_sales_data.py]). *)
Definition PAYMENT_CANON : list (string * string) :=
  [("visa", "Visa"); ("mastercard", "Mastercard"); ("amex", "Amex");
   ("americanexpress", "Amex"); ("discover", "Discover"); ("cash", "Cash");
   ("applepay", "ApplePay"); ("googlepay", "GooglePay")].

Definition normalize_payment (pm : cell) : string :=
  if isna pm || bool_decide (strip (astype_str pm) = EmptyString)
  then "Unknown"
  else
    let key := remove_spaces (lower (strip (astype_str pm))) in
    default "Unknown" (assoc key PAYMENT_CANON).

(** *** Dimensions derived from the facts *)

Fixpoint somes {A : Type} (s : Series (option A)) : Series A :=
  match s with
  | [] => []
  | (i, Some a) :: s' => (i, a) :: somes s'
  | (_, None) :: s' => somes s'
  end.

Definition bool_to_int (b : bool) : Z := if b then 1%Z else 0%Z.

Definition is_weekend (t : Timestamp) : Z :=
  bool_to_int (bool_decide (dayofweek t ∈ [5; 6]%Z)).

Definition build_dates_from_sales (sales_df : DataFrame) : option DataFrame :=
  d ← getitem sales_df "date";
  let s := somes (to_datetime d) in
  let out :=
    frame_of_dict
      [("date", smap (λ t, Str (strftime t)) s);
       ("year", smap (λ t, Int (year t)) s);
       ("quarter", smap (λ t, Int (quarter t)) s);
       ("month", smap (λ t, Int (month t)) s);
       ("day", smap (λ t, Int (day t)) s);
       ("is_weekend", smap (λ t, Int (is_weekend t)) s)] in
  drop_duplicates "date" out ≫= sort_values "date".

Definition build_dim_from_sales (sales_df : DataFrame) (id_col schema : string)
  : option DataFrame :=
  col ← getitem sales_df id_col;
  let ids :=
    to_frame id_col (series_drop_duplicates (series_astype_str (dropna col))) in
  if decide (schema = "stores") then
    let ids := setitem_scalar "store_name" (Str EmptyString) ids in
    let ids := setitem_scalar "region" (Str EmptyString) ids in
    set_columns ["store_id"; "store_name"; "region"] ids
  else if decide (schema = "campaigns") then
    let ids := setitem_scalar "campaign_name" (Str EmptyString) ids in
    let ids := setitem_scalar "start_date" (Str EmptyString) ids in
    let ids := setitem_scalar "end_date" (Str EmptyString) ids in
    set_columns ["campaign_id"; "campaign_name"; "start_date"; "end_date"] ids
  else if decide (schema = "payment_methods") then
    k ← getitem ids id_col;
    ids ← setitem "method_name" k ids;
    set_columns ["payment_method_id"; "method_name"] ids
  else Some ids.

(** *** Referential closure *)

(** [set(s)] of a series of strings. *)
Definition str_set (s : Series cell) : gset string :=
  list_to_set (astype_str <$> values s).

(** [sorted(list(x))] *)
Definition sorted (x : gset string) : list string :=
  merge_sort str_le (elements x).

(** One step of the loop over [fill_cols.items()]. *)
Definition fill_column (key : string) (add : DataFrame) (cv : string * fill)
  : option DataFrame :=
  match cv.2 with
  | Const v => Some (setitem_scalar cv.1 v add)
  | Callable f => k ← getitem add key; setitem cv.1 (smap f k) add
  end.

Fixpoint fill_columns (key : string) (fill_cols : list (string * fill))
    (add : DataFrame) : option DataFrame :=
  match fill_cols with
  | [] => Some add
  | cv :: rest => add' ← fill_column key add cv; fill_columns key rest add'
  end.

Definition ensure_dim_covers_sales_keys (sales_df dim_df : DataFrame)
    (key : string) (fill_cols : list (string * fill)) : option DataFrame :=
  have ← (if negb (is_empty dim_df)
          then str_set <$> getitem dim_df key
          else Some ∅);
  need ← (λ k, str_set (dropna k)) <$> getitem sales_df key;
  let missing := sorted (need ∖ have) in
  if decide (missing = []) then Some dim_df
  else
    let add := {| columns := [key];
                  body := range_index ((λ m, {[ key := Str m ]}) <$> missing) |} in
    add ← fill_columns key fill_cols add;
    concat dim_df add.


(** *** Writing to the warehouse *)

(** What the store enforces on an insertion into table [t] (declared keys,
    NOT NULL, foreign keys, column names): taken as given. *)
Variable accepts : string → store → row → bool.

Fixpoint insert_rows (t : string) (rows : list row) (s : store) : option store :=
  match rows with
  | [] => Some s
  | r :: rows' =>
      if accepts t s r
      then insert_rows t rows' (<[t := s !!! t ++ [r]]> s)
      else None
  end.

(** [df.to_sql(t, conn, if_exists="append", index=False)].  pandas runs the
    insertion in [run_transaction]: it commits the connection when the
    rows are in, and rolls it back and re-raises when one is refused. *)
Definition to_sql (df : DataFrame) (t : string) : db unit :=
  λ c, match insert_rows t (body df).*2 (current c) with
       | Some s => (Some (), commit {| disk := disk c; txn := Some s |})
       | None => (None, rollback c)
       end.

(** *** Main load *)

Record tables : Type := mkTables {
  dates_df : DataFrame;
  customers_df : DataFrame;
  products_df : DataFrame;
  stores_df : DataFrame;
  campaigns_df : DataFrame;
  methods_df : DataFrame;
  sales_df : DataFrame
}.

Definition STORE_FILL : list (string * fill) :=
  [("store_name", Const (Str EmptyString)); ("region", Const (Str EmptyString))].

Definition METHOD_FILL : list (string * fill) :=
  [("method_name", Callable (λ x, x))].

Definition CAMPAIGN_FILL : list (string * fill) :=
  [("campaign_name", Const (Str EmptyString));
   ("start_date", Const (Str EmptyString));
   ("end_date", Const (Str EmptyString))].

Definition CUSTOMER_FILL : list (string * fill) :=
  [("name", Const (Str EmptyString)); ("region", Const (Str EmptyString));
   ("join_date", Const (Str EmptyString));
   ("last_purchase_date", Const (Str EmptyString));
   ("email_opt_in", Const (Int 0))].

Definition PRODUCT_FILL : list (string * fill) :=
  [("product_name", Const (Str EmptyString));
   ("category", Const (Str EmptyString));
   ("unit_price", Const (Flt 0)); ("stock_level", Const (Int 0));
   ("discontinued", Const (Int 0))].

(** The files under [CLEAN_DIR] as [pd.read_csv] parses them; a missing file
    makes [_read_clean] raise. *)
Definition _read_clean (fs : string → option DataFrame) (filename : string)
  : option DataFrame := fs filename.

(** The first half of [load_dw]: the seven tables, in memory. *)
Definition build_tables (fs : string → option DataFrame) : option tables :=
  customers_raw ← _read_clean fs "customers_data_clean.csv";
  products_raw ← _read_clean fs "products_data_clean.csv";
  sales_raw ← _read_clean fs "sales_data_clean.csv";
  customers ← normalize_customers customers_raw;
  products ← normalize_products products_raw;
  sales ← normalize_sales sales_raw;
  dates ← build_dates_from_sales sales;
  stores ← build_dim_from_sales sales "store_id" "stores";
  campaigns ← build_dim_from_sales sales "campaign_id" "campaigns";
  methods ← build_dim_from_sales sales "payment_method_id" "payment_methods";
  stores ← ensure_dim_covers_sales_keys sales stores "store_id" STORE_FILL;
  methods ← ensure_dim_covers_sales_keys sales methods "payment_method_id"
              METHOD_FILL;
  campaigns ← ensure_dim_covers_sales_keys sales campaigns "campaign_id"
                CAMPAIGN_FILL;
  customers ← ensure_dim_covers_sales_keys sales customers "customer_id"
                CUSTOMER_FILL;
  products ← ensure_dim_covers_sales_keys sales products "product_id"
               PRODUCT_FILL;
  Some (mkTables dates customers products stores campaigns methods sales).

(** The second half: the block run on the connection. *)
Definition write_tables (tb : tables) : db (list (string * nat)) :=
  executescript_DDL ;;;
  for_each execute_delete
    ["sales"; "payment_methods"; "campaigns"; "stores"; "products";
     "customers"; "dates"] ;;;
  to_sql (dates_df tb) "dates" ;;;
  to_sql (customers_df tb) "customers" ;;;
  to_sql (products_df tb) "products" ;;;
  to_sql (stores_df tb) "stores" ;;;
  to_sql (campaigns_df tb) "campaigns" ;;;
  to_sql (methods_df tb) "payment_methods" ;;;
  to_sql (sales_df tb) "sales" ;;;
  conn_commit ;;;
  report.

(** [load_dw]: the printed row counts ([None] when the run raised) and the
    store the run leaves on disk. *)
Definition load_dw (fs : string → option DataFrame) (s : store)
  : option (list (string * nat)) * store :=
  match build_tables fs with
  | None => (None, s)
  | Some tb => with_connection (write_tables tb) s
  end.

End Loader.

(** ** Reference text conventions

    Concrete readers and a printer on which the loader can be run: plain
    decimal literals, zero-padded calendar dates, floats in fixed notation. *)

Definition digit_val (a : ascii) : option Z :=
  let n := nat_of_ascii a in
  if bool_decide (48 ≤ n ∧ n ≤ 57)%nat then Some (Z.of_nat (n - 48)) else None.

Fixpoint digits_val (acc : Z) (s : string) : option Z :=
  match s with
  | EmptyString => Some acc
  | String a s' => d ← digit_val a; digits_val (10 * acc + d)%Z s'
  end.

Definition natural_literal (s : string) : option Z :=
  match s with
  | EmptyString => None
  | _ => digits_val 0 s
  end.

(** An optional sign, digits, and an optional fraction. *)
Definition decimal_literal (s : string) : option Q :=
  let '(neg, body) :=
    match s with
    | String "-" s' => (true, s')
    | _ => (false, s)
    end in
  let sgn (z : Z) := if neg : bool then (- z)%Z else z in
  match String.index 0 "." body with
  | None => (λ z, inject_Z (sgn z)) <$> natural_literal body
  | Some k =>
      let ip := String.substring 0 k body in
      let fp := String.substring (S k) (String.length body - S k) body in
      i ← natural_literal ip;
      f ← natural_literal fp;
      let scale := (10 ^ Z.of_nat (String.length fp))%Z in
      Some (Qmake (sgn (i * scale + f)%Z) (Z.to_pos scale))
  end.

Definition days_in_month (y m : Z) : Z :=
  if bool_decide (m = 2)%Z then
    if bool_decide ((y mod 4 = 0 ∧ y mod 100 ≠ 0) ∨ y mod 400 = 0)%Z
    then 29%Z else 28%Z
  else if bool_decide (m ∈ [4; 6; 9; 11]%Z) then 30%Z else 31%Z.

(** Dates of the calendar written [YYYY-MM-DD]. *)
Definition iso_date (s : string) : option Timestamp :=
  if bool_decide (String.length s = 10 ∧ String.get 4 s = Some "-"%char
                  ∧ String.get 7 s = Some "-"%char) then
    y ← natural_literal (String.substring 0 4 s);
    m ← natural_literal (String.substring 5 2 s);
    d ← natural_literal (String.substring 8 2 s);
    if bool_decide (1 ≤ m ≤ 12 ∧ 1 ≤ d ≤ days_in_month y m)%Z
    then Some (mkTimestamp y m d) else None
  else None.

Fixpoint fraction_digits (fuel : nat) (num den : Z) : string :=
  match fuel with
  | O => EmptyString
  | S fuel' =>
      if bool_decide (num = 0)%Z then EmptyString
      else pretty (num * 10 / den)%Z
             +:+ fraction_digits fuel' (num * 10 mod den)%Z den
  end.

(** A float printed in fixed notation, with at least one decimal. *)
Definition fixed_repr (q : Q) : string :=
  let n := Z.abs (Qnum q) in
  let d := Z.pos (Qden q) in
  let frac := fraction_digits 17 (n mod d)%Z d in
  (if bool_decide (Qnum q < 0)%Z then "-" else EmptyString)
    +:+ pretty (n / d)%Z +:+ "."
    +:+ (if bool_decide (frac = EmptyString) then "0" else frac).

(** Primary keys of the schema: a row is refused when its key is already in
    the table. *)
Definition PRIMARY_KEY : list (string * string) :=
  [("dates", "date"); ("customers", "customer_id");
   ("products", "product_id"); ("stores", "store_id");
   ("campaigns", "campaign_id"); ("payment_methods", "payment_method_id");
   ("sales", "sale_id")].

Definition primary_key_accepts (t : string) (s : store) (r : row) : bool :=
  match assoc t PRIMARY_KEY with
  | Some k =>
      isna (at_col r k)
      || bool_decide (at_col r k ∉ (λ r', at_col r' k) <$> (s !!! t))
  | None => true
  end.

(** ** Row-level reading of the column operations *)

(** The value a default attribute takes on a synthesized row. *)
Definition fill_value (key : string) (r : row) (v : fill) : cell :=
  match v with
  | Const x => x
  | Callable f => f (at_col r key)
  end.

(** A synthesized row after the loop over [fill_cols]. *)
Definition fill_row (key : string) (fill_cols : list (string * fill)) (r : row)
  : row :=
  foldl (λ r cv, <[cv.1 := fill_value key r cv.2]> r) r fill_cols.

Definition fill_header (fill_cols : list (string * fill)) (cols : list string)
  : list string :=
  foldl (λ cols cv, with_column cv.1 cols) cols fill_cols.

(** The cells a frame holds under a column name, in row order. *)
Definition column_cells (df : DataFrame) (c : string) : list cell :=
  (λ p, at_col p.2 c) <$> body df.

(** The keys [ensure_dim_covers_sales_keys] finds missing from the
    dimension, in the order in which it appends them. *)
Definition missing_of (float_repr : Q → string) (F D : DataFrame) (k : string)
  : list string :=
  sorted (str_set float_repr (dropna (from_option id [] (getitem F k)))
            ∖ (if is_empty D then ∅
               else str_set float_repr (from_option id [] (getitem D k)))).


(** The cleaned sales file as the loader expects it (§6 of the
    specification): unique column names that include the nine source names
    and none of the names they are renamed to, and unique index labels (as
    the [RangeIndex] of [pd.read_csv]). *)
Definition sales_ready (df : DataFrame) : Prop :=
  NoDup (columns df) ∧
  Forall (λ p, p.1 ∈ columns df ∧ p.2 ∉ columns df) SALES_RENAME ∧
  NoDup (body df).*1.

(** What [normalize_sales] makes of one row that keeps its place, read off
    the renamed row. *)
Definition fact_row (float_repr : Q → string)
    (to_numeric_str : string → option Q)
    (strptime : string → option Timestamp) (r : row) : row :=
  let r := <["date" := from_option (λ t, Str (strftime t)) NaN
                         (parse_date strptime (at_col r "date"))]> r in
  let r := <["quantity" :=
               Int (astype_int (default 0%Q (to_numeric to_numeric_str
                                               (at_col r "quantity"))))]> r in
  let r := <["sales_amount" :=
               Flt (default 0%Q (to_numeric to_numeric_str
                                   (at_col r "sales_amount")))]> r in
  let r := <["store_id" :=
               replace_cell [(EmptyString, Str "UNKNOWN-STORE")]
                 (Str (astype_str float_repr (at_col r "store_id")))]> r in
  let r := <["payment_method_id" :=
               replace_cell [(EmptyString, Str "UNKNOWN")]
                 (Str (astype_str float_repr (at_col r "payment_method_id")))]> r in
  <["campaign_id" :=
      replace_cell [(EmptyString, PyNone); ("nan", PyNone)]
        (Str (astype_str float_repr (at_col r "campaign_id")))]> r.

(** ** Sample tables *)

Definition row_of (l : list (string * cell)) : row := list_to_map l.

(** Facts and customers keyed by numbers, as [pd.read_csv] types a column of
    numeric identifiers. *)
Definition numbered_facts : DataFrame :=
  {| columns := ["sale_id"; "customer_id"];
     body := [(0, row_of [("sale_id", Int 1); ("customer_id", Int 1001)]);
              (1, row_of [("sale_id", Int 2); ("customer_id", Int 1002)])] |}.

Definition numbered_customers : DataFrame :=
  {| columns := ["customer_id"; "name"];
     body := [(0, row_of [("customer_id", Int 1001); ("name", Str "Ada")])] |}.

(** The same, keyed by strings. *)
Definition named_facts : DataFrame :=
  {| columns := ["sale_id"; "customer_id"];
     body := [(0, row_of [("sale_id", Int 1); ("customer_id", Str "C2")]);
              (1, row_of [("sale_id", Int 2); ("customer_id", PyNone)]);
              (2, row_of [("sale_id", Int 3); ("customer_id", Str "C1")]);
              (3, row_of [("sale_id", Int 4); ("customer_id", Str "C3")])] |}.

Definition named_customers : DataFrame :=
  {| columns := ["customer_id"; "name"];
     body := [(0, row_of [("customer_id", Str "C1"); ("name", Str "Ada")])] |}.

(** Facts of one store, a store dimension without rows, and default
    attributes that name the key column itself. *)
Definition one_store_facts : DataFrame :=
  {| columns := ["sale_id"; "store_id"];
     body := [(0, row_of [("sale_id", Int 1); ("store_id", Str "S1")])] |}.

Definition no_stores : DataFrame :=
  {| columns := ["store_id"; "store_name"]; body := [] |}.

Definition KEY_NAMING_FILL : list (string * fill) :=
  [("store_id", Const (Str "UNKNOWN-STORE"));
   ("store_name", Const (Str EmptyString))].

(** A cleaned sales file of four rows: the example of the specification (a
    Saturday, no store, no campaign, quantity 0, method ["VISA"]), a row
    whose date does not parse, a row with an empty store, a negative quantity
    and no payment method, and a row already cleaned upstream. *)
Definition sample_sales : DataFrame :=
  {| columns := ["TransactionID"; "SaleDate"; "CustomerID"; "ProductID";
                 "StoreID"; "CampaignID"; "SaleAmount"; "Quantity";
                 "PaymentMethod"];
     body :=
       [(0, row_of [("TransactionID", Int 1); ("SaleDate", Str "2024-03-09");
                    ("CustomerID", Str "C1"); ("ProductID", Str "P1");
                    ("StoreID", NaN); ("CampaignID", NaN);
                    ("SaleAmount", Flt (19999 # 1000)); ("Quantity", Int 0);
                    ("PaymentMethod", Str "VISA")]);
        (1, row_of [("TransactionID", Int 2); ("SaleDate", Str "not-a-date");
                    ("CustomerID", Str "C1"); ("ProductID", Str "P1");
                    ("StoreID", Str "S1"); ("CampaignID", NaN);
                    ("SaleAmount", Flt (5 # 1)); ("Quantity", Int 2);
                    ("PaymentMethod", Str "Cash")]);
        (2, row_of [("TransactionID", Int 3); ("SaleDate", Str "2024-03-08");
                    ("CustomerID", Str "C2"); ("ProductID", Str "P1");
                    ("StoreID", Str EmptyString); ("CampaignID", Str "K1");
                    ("SaleAmount", Str "n/a"); ("Quantity", Int (-3));
                    ("PaymentMethod", NaN)]);
        (3, row_of [("TransactionID", Int 4); ("SaleDate", Str "2024-03-09");
                    ("CustomerID", Str "C1"); ("ProductID", Str "P2");
                    ("StoreID", Str "S1"); ("CampaignID", NaN);
                    ("SaleAmount", Int 7); ("Quantity", Str "many");
                    ("PaymentMethod", Str "Visa")])] |}.

(** ** The calendar, row by row *)

(** The calendar row of a date. *)
Definition CALENDAR : list (string * (Timestamp → cell)) :=
  [("date", λ t, Str (strftime t)); ("year", λ t, Int (year t));
   ("quarter", λ t, Int (quarter t)); ("month", λ t, Int (month t));
   ("day", λ t, Int (day t)); ("is_weekend", λ t, Int (is_weekend t))].

Definition calendar_row (t : Timestamp) : row :=
  list_to_map ((λ cf, (cf.1, cf.2 t)) <$> CALENDAR).

(** The dates of a fact table that parse, in row order. *)
Definition valid_dates (strptime : string → option Timestamp) (F : DataFrame)
  : list Timestamp :=
  omap (parse_date strptime) (column_cells F "date").

(** A fact table whose dates repeat, and two dates that do not parse. *)
Definition dated_facts : DataFrame :=
  {| columns := ["sale_id"; "date"];
     body := [(0, row_of [("sale_id", Int 1); ("date", Str "2024-03-09")]);
              (1, row_of [("sale_id", Int 2); ("date", Str "2024-03-04")]);
              (2, row_of [("sale_id", Int 3); ("date", Str "2024-03-09")]);
              (3, row_of [("sale_id", Int 4); ("date", Str "soon")]);
              (4, row_of [("sale_id", Int 5); ("date", NaN)]);
              (5, row_of [("sale_id", Int 6); ("date", Str "2023-12-31")])] |}.

(** ** The write phase, step by step *)

(** The store after the seven [DELETE] statements. *)
Definition wiped (s : store) : store :=
  foldl (λ s t, <[t := []]> s) s
    ["sales"; "payment_methods"; "campaigns"; "stores"; "products";
     "customers"; "dates"].

(** The tables in the order in which [load_dw] passes them to [to_sql]. *)
Definition load_order (tb : tables) : list (string * DataFrame) :=
  [("dates", dates_df tb); ("customers", customers_df tb);
   ("products", products_df tb); ("stores", stores_df tb);
   ("campaigns", campaigns_df tb); ("payment_methods", methods_df tb);
   ("sales", sales_df tb)].

(** The insertions one after the other, from the uncommitted state [w];
    [committed] is what the disk holds should the next insertion fail.  The
    result is the store left on disk and whether every insertion went
    through. *)
Fixpoint insert_all (accepts : string → store → row → bool)
    (steps : list (string * DataFrame)) (committed w : store) : bool * store :=
  match steps with
  | [] => (true, w)
  | (t, df) :: rest =>
      match insert_rows accepts t (body df).*2 w with
      | Some w' => insert_all accepts rest w' w'
      | None => (false, committed)
      end
  end.

(** ** A sample run *)

Definition sample_customers : DataFrame :=
  {| columns := ["CustomerID"; "Name"; "Region"; "JoinDate";
                 "LastPurchaseDate"; "EmailOptIn"];
     body := [(0, row_of [("CustomerID", Str "C1"); ("Name", Str "Ada");
                          ("Region", Str "east"); ("JoinDate", Str "2020-01-01");
                          ("LastPurchaseDate", NaN); ("EmailOptIn", Str "Yes")])] |}.

Definition sample_products : DataFrame :=
  {| columns := ["ProductID"; "ProductName"; "Category"; "UnitPrice";
                 "StockLevel"; "Discontinued"];
     body := [(0, row_of [("ProductID", Str "P1"); ("ProductName", Str "pen");
                          ("Category", Str "office");
                          ("UnitPrice", Flt (3 # 2)); ("StockLevel", Int 10);
                          ("Discontinued", Str "no")])] |}.

(** Cleaned sales in which a transaction identifier occurs twice. *)
Definition repeated_sales : DataFrame :=
  {| columns := ["TransactionID"; "SaleDate"; "CustomerID"; "ProductID";
                 "StoreID"; "CampaignID"; "SaleAmount"; "Quantity";
                 "PaymentMethod"];
     body :=
       [(0, row_of [("TransactionID", Int 1); ("SaleDate", Str "2024-03-09");
                    ("CustomerID", Str "C1"); ("ProductID", Str "P1");
                    ("StoreID", Str "S1"); ("CampaignID", NaN);
                    ("SaleAmount", Flt (5 # 1)); ("Quantity", Int 1);
                    ("PaymentMethod", Str "Cash")]);
        (1, row_of [("TransactionID", Int 1); ("SaleDate", Str "2024-03-11");
                    ("CustomerID", Str "C2"); ("ProductID", Str "P1");
                    ("StoreID", Str "S2"); ("CampaignID", NaN);
                    ("SaleAmount", Flt (7 # 1)); ("Quantity", Int 2);
                    ("PaymentMethod", Str "Visa")])] |}.

Definition clean_dir (sales : DataFrame) (filename : string) : option DataFrame :=
  assoc filename
    [("customers_data_clean.csv", sample_customers);
     ("products_data_clean.csv", sample_products);
     ("sales_data_clean.csv", sales)].

(** A warehouse left by an earlier run: one row in each table. *)
Definition earlier_warehouse : store :=
  list_to_map
    [("dates", [row_of [("date", Str "2024-01-01")]]);
     ("customers", [row_of [("customer_id", Str "C0")]]);
     ("products", [row_of [("product_id", Str "P0")]]);
     ("stores", [row_of [("store_id", Str "S0")]]);
     ("campaigns", [row_of [("campaign_id", Str "K0")]]);
     ("payment_methods", [row_of [("payment_method_id", Str "Cash")]]);
     ("sales", [row_of [("sale_id", Int 1); ("date", Str "2024-01-01");
                        ("customer_id", Str "C0"); ("product_id", Str "P0");
                        ("store_id", Str "S0");
                        ("payment_method_id", Str "Cash")]])].

(** ** Further readings of the loader, cell by cell *)

(** The flag [_yn_to_int] computes for one cell. *)
Definition yn_flag (float_repr : Q → string) (c : cell) : Z :=
  default 0%Z (assoc (lower (strip (astype_str float_repr c))) YN).

(** The values of [PAYMENT_CANON], and the fallback. *)
Definition PAYMENT_TOKENS : list string :=
  ["Visa"; "Mastercard"; "Amex"; "Discover"; "Cash"; "ApplePay"; "GooglePay";
   "Unknown"].

(** A cleaned file with the header a normalizer expects: unique column names
    that include the source names of [mapping] and none of the names they
    are renamed to. *)
Definition has_header (mapping : list (string * string)) (df : DataFrame)
  : Prop :=
  NoDup (columns df) ∧
  Forall (λ p, p.1 ∈ columns df ∧ p.2 ∉ columns df) mapping.

Definition CUSTOMER_COLUMNS : list string :=
  ["customer_id"; "name"; "region"; "join_date"; "last_purchase_date";
   "email_opt_in"].

Definition PRODUCT_COLUMNS : list string :=
  ["product_id"; "product_name"; "category"; "unit_price"; "stock_level";
   "discontinued"].

(** Cleaned files that lack a column the loader reads. *)
Definition customers_without_opt_in : DataFrame :=
  {| columns := ["CustomerID"; "Name"; "Region"; "JoinDate"; "LastPurchaseDate"];
     body := [(0, row_of [("CustomerID", Str "C1"); ("Name", Str "Ada");
                          ("Region", Str "east"); ("JoinDate", Str "2020-01-01");
                          ("LastPurchaseDate", NaN)])] |}.

Definition products_without_category : DataFrame :=
  {| columns := ["ProductID"; "ProductName"; "UnitPrice"; "StockLevel";
                 "Discontinued"];
     body := [(0, row_of [("ProductID", Str "P1"); ("ProductName", Str "pen");
                          ("UnitPrice", Flt (3 # 2)); ("StockLevel", Int 10);
                          ("Discontinued", Str "no")])] |}.

Definition sales_without_store : DataFrame :=
  {| columns := ["TransactionID"; "SaleDate"; "CustomerID"; "ProductID";
                 "CampaignID"; "SaleAmount"; "Quantity"; "PaymentMethod"];
     body :=
       [(0, row_of [("TransactionID", Int 1); ("SaleDate", Str "2024-03-09");
                    ("CustomerID", Str "C1"); ("ProductID", Str "P1");
                    ("CampaignID", NaN); ("SaleAmount", Flt (5 # 1));
                    ("Quantity", Int 1); ("PaymentMethod", Str "Cash")])] |}.

(** The columns [normalize_sales] reads or assigns. *)
Definition SALES_TOUCHED : list string :=
  ["date"; "quantity"; "sales_amount"; "store_id"; "payment_method_id";
   "campaign_id"].

(** ** Dimensions derived from the facts, row by row *)

(** The three dimensions [load_dw] derives from the facts: the schema, its
    key column, and the default attributes handed to the enforcer for it. *)
Definition DERIVED : list (string * string * list (string * fill)) :=
  [("stores", "store_id", STORE_FILL);
   ("campaigns", "campaign_id", CAMPAIGN_FILL);
   ("payment_methods", "payment_method_id", METHOD_FILL)].

(** The series [build_dim_from_sales] starts from: the non-null cells of a
    column as text, first occurrences only. *)
Definition key_series (float_repr : Q → string) (F : DataFrame) (k : string)
  : Series cell :=
  series_drop_duplicates
    (series_astype_str float_repr
       (dropna ((λ p, (p.1, at_col p.2 k)) <$> body F))).

(** A fact key is covered when its text is the text of a dimension key. *)
Definition covered (float_repr : Q → string) (F D : DataFrame) (k : string)
  : Prop :=
  ∀ v, v ∈ column_cells F k → isna v = false →
       astype_str float_repr v ∈ astype_str float_repr <$> column_cells D k.

(** ** The tables handed to the warehouse *)

(** The columns the DDL declares for the six dimension tables. *)
Definition DDL_COLUMNS : list (string * list string) :=
  [("dates", ["date"; "year"; "quarter"; "month"; "day"; "is_weekend"]);
   ("customers", ["customer_id"; "name"; "region"; "join_date";
                  "last_purchase_date"; "email_opt_in"]);
   ("products", ["product_id"; "product_name"; "category"; "unit_price";
                 "stock_level"; "discontinued"]);
   ("stores", ["store_id"; "store_name"; "region"]);
   ("campaigns", ["campaign_id"; "campaign_name"; "start_date"; "end_date"]);
   ("payment_methods", ["payment_method_id"; "method_name"])].

(** The files [load_dw] reads. *)
Definition CLEAN_FILES : list string :=
  ["customers_data_clean.csv"; "products_data_clean.csv";
   "sales_data_clean.csv"].

(** A directory from which the products file is missing. *)
Definition dir_without_products (filename : string) : option DataFrame :=
  assoc filename
    [("customers_data_clean.csv", sample_customers);
     ("sales_data_clean.csv", sample_sales)].

(** The number a numeric cell holds, whichever its type. *)
Definition number_of (c : cell) : option Q :=
  match c with
  | Int z => Some (inject_Z z)
  | Flt q => Some q
  | _ => None
  end.

(** The range of [int64]. *)
Definition int64 (z : Z) : Prop := (- 2 ^ 63 ≤ z < 2 ^ 63)%Z.
(** ** The order on strings *)

Lemma ascii_compare_trans_lt (a b c : ascii) :
  Ascii.compare a b = Lt → Ascii.compare b c = Lt → Ascii.compare a c = Lt.
Proof.
  unfold Ascii.compare. rewrite !N.compare_lt_iff. apply N.lt_trans.
Qed.

Lemma string_leb_trans (a b c : string) :
  String.leb a b = true → String.leb b c = true → String.leb a c = true.
Proof.
  unfold String.leb. revert b c.
  induction a as [|x a IH]; intros [|y b] [|z c]; simpl; try done.
  destruct (Ascii.compare x y) eqn:Hxy; try done.
  - apply Ascii.compare_eq_iff in Hxy as ->.
    destruct (Ascii.compare y z) eqn:Hyz; try done. apply IH.
  - destruct (Ascii.compare y z) eqn:Hyz; try done.
    + apply Ascii.compare_eq_iff in Hyz as <-. by rewrite Hxy.
    + by rewrite (ascii_compare_trans_lt _ _ _ Hxy Hyz).
Qed.

#[global] Instance str_le_total : Total str_le.
Proof. intros a b. apply String.leb_total. Qed.
#[global] Instance str_le_trans : Transitive str_le.
Proof. intros a b c. apply string_leb_trans. Qed.
#[global] Instance str_le_antisym : AntiSymm (=) str_le.
Proof. intros a b. apply String.leb_antisym. Qed.
#[global] Instance str_le_refl : Reflexive str_le.
Proof. intros a. by destruct (total str_le a a). Qed.

(** ** Properties of the loader *)

(** *** Sorting a set of strings *)

Lemma sorted_Permutation (x : gset string) : sorted x ≡ₚ elements x.
Proof. apply merge_sort_Permutation. Qed.

Lemma elem_of_sorted (x : gset string) (s : string) : s ∈ sorted x ↔ s ∈ x.
Proof. by rewrite sorted_Permutation, elem_of_elements. Qed.

Lemma sorted_NoDup (x : gset string) : NoDup (sorted x).
Proof. rewrite sorted_Permutation. apply NoDup_elements. Qed.

Lemma sorted_ascending (x : gset string) : StronglySorted str_le (sorted x).
Proof. apply Sorted_StronglySorted; [apply _|]. apply Sorted_merge_sort, _. Qed.

Lemma sorted_nil (x : gset string) : sorted x = [] ↔ x = ∅.
Proof.
  split.
  - intros Hs. apply set_eq. intros s. rewrite <- elem_of_sorted, Hs. set_solver.
  - intros ->. apply Permutation_nil_r. by rewrite sorted_Permutation, elements_empty.
Qed.

(** *** Columns *)

Lemma count_col_app c l1 l2 :
  count_col c (l1 ++ l2) = count_col c l1 + count_col c l2.
Proof. unfold count_col. by rewrite filter_app, length_app. Qed.

Lemma count_col_0 c l : count_col c l = 0 ↔ c ∉ l.
Proof.
  unfold count_col. induction l as [|x l IH]; simpl.
  - split; [set_solver|done].
  - rewrite filter_cons. case_decide; simpl; [set_solver|].
    rewrite IH. set_solver.
Qed.

Lemma count_col_pos c l : 0 < count_col c l ↔ c ∈ l.
Proof.
  pose proof (count_col_0 c l) as [H1 H2].
  destruct (decide (c ∈ l)) as [Hin|Hin].
  - split; [done|]. intros _. destruct (count_col c l); [|lia].
    by destruct H1.
  - rewrite (H2 Hin). split; [lia|done].
Qed.

Lemma count_col_NoDup c l : NoDup l → c ∈ l → count_col c l = 1.
Proof.
  unfold count_col. induction 1 as [|x l Hx Hl IH]; [set_solver|].
  rewrite filter_cons. intros [->|Hin]%elem_of_cons.
  - rewrite decide_True by done. simpl. f_equal.
    by apply (count_col_0 x l).
  - rewrite decide_False by set_solver. by apply IH.
Qed.

Lemma count_col_with_column k c cols :
  count_col k cols = 1 → count_col k (with_column c cols) = 1.
Proof.
  unfold with_column. intros Hk. case_decide; [done|].
  rewrite count_col_app, Hk. unfold count_col. rewrite filter_cons, filter_nil.
  case_decide; [|done]. subst c.
  assert (k ∈ cols) by (apply count_col_pos; lia). done.
Qed.

Lemma NoDup_with_column c cols : NoDup cols → NoDup (with_column c cols).
Proof.
  unfold with_column. intros Hn. case_decide; [done|].
  apply NoDup_app. split_and!; [done|set_solver|apply NoDup_singleton].
Qed.

Lemma elem_of_with_column k c cols : k ∈ cols → k ∈ with_column c cols.
Proof. unfold with_column. case_decide; set_solver. Qed.

Lemma getitem_Some df c s :
  getitem df c = Some s ↔
  count_col c (columns df) = 1 ∧ s = (λ p, (p.1, at_col p.2 c)) <$> body df.
Proof. unfold getitem. case_decide; naive_solver. Qed.

Lemma getitem_values df c s :
  getitem df c = Some s → values s = column_cells df c.
Proof.
  intros [_ ->]%getitem_Some. unfold values, column_cells.
  by rewrite <- list_fmap_compose.
Qed.

Lemma getitem_index df c s : getitem df c = Some s → index s = (body df).*1.
Proof.
  intros [_ ->]%getitem_Some. unfold index. by rewrite <- list_fmap_compose.
Qed.

(** Assigning a series computed row by row from the frame itself. *)
Lemma setitem_rowwise c (g : row → cell) df :
  setitem c ((λ p, (p.1, g p.2)) <$> body df) df =
  Some {| columns := with_column c (columns df);
          body := (λ p, (p.1, <[c := g p.2]> p.2)) <$> body df |}.
Proof.
  unfold setitem, reindex_for_setitem, index, values.
  rewrite <- !list_fmap_compose. rewrite decide_True by done. simpl.
  do 2 f_equal. induction (body df) as [|p l IH]; simpl; [done|by f_equal].
Qed.

Lemma imap_values {A : Type} (g : nat → label) (l : list A) :
  (imap (λ i r, (g i, r)) l).*2 = l.
Proof.
  revert g. induction l as [|r l IH]; intros g; simpl; [done|].
  f_equal. apply (IH (g ∘ S)).
Qed.

Lemma range_index_values (rs : list row) : (range_index rs).*2 = rs.
Proof. apply (imap_values id). Qed.

(** *** Default attributes *)

Lemma fill_column_spec k add cv :
  count_col k (columns add) = 1 →
  fill_column k add cv =
  Some {| columns := with_column cv.1 (columns add);
          body := (λ p, (p.1, <[cv.1 := fill_value k p.2 cv.2]> p.2))
                    <$> body add |}.
Proof.
  intros Hk. unfold fill_column. destruct cv as [c [v|f]]; simpl; [done|].
  unfold getitem. rewrite decide_True by done. simpl.
  unfold smap. rewrite <- list_fmap_compose.
  apply (setitem_rowwise c (λ r, f (at_col r k))).
Qed.

Lemma fill_columns_spec k fill_cols add :
  count_col k (columns add) = 1 →
  fill_columns k fill_cols add =
  Some {| columns := fill_header fill_cols (columns add);
          body := (λ p, (p.1, fill_row k fill_cols p.2)) <$> body add |}.
Proof.
  revert add. induction fill_cols as [|cv rest IH]; intros add Hk; simpl.
  - destruct add as [cols b]; simpl. unfold fill_row, fill_header; simpl.
    do 2 f_equal. clear. induction b as [|[i r] b IHb]; simpl; [done|by f_equal].
  - rewrite (fill_column_spec _ _ _ Hk). simpl.
    rewrite IH by (by apply count_col_with_column). simpl.
    unfold fill_header, fill_row. simpl. do 2 f_equal.
    by rewrite <- list_fmap_compose.
Qed.

Lemma fill_header_count k fill_cols cols :
  count_col k cols = 1 → count_col k (fill_header fill_cols cols) = 1.
Proof.
  revert cols. induction fill_cols as [|cv rest IH]; intros cols Hk; [done|].
  apply IH. by apply count_col_with_column.
Qed.

Lemma fill_header_NoDup fill_cols cols :
  NoDup cols → NoDup (fill_header fill_cols cols).
Proof.
  revert cols. induction fill_cols as [|cv rest IH]; intros cols Hn; [done|].
  apply IH. by apply NoDup_with_column.
Qed.

(** Default attributes that do not name the key column leave the key of a
    synthesized row alone. *)
Lemma fill_row_key k fill_cols (r : row) :
  k ∉ fill_cols.*1 → at_col (fill_row k fill_cols r) k = at_col r k.
Proof.
  revert r. induction fill_cols as [|[c v] rest IH]; intros r Hk; [done|].
  simpl in Hk. apply not_elem_of_cons in Hk as [Hne Hk].
  change (fill_row k ((c, v) :: rest) r)
    with (fill_row k rest (<[c := fill_value k r v]> r)).
  rewrite (IH _ Hk). unfold at_col. by rewrite lookup_insert_ne.
Qed.

Lemma count_col_singleton k : count_col k [k] = 1.
Proof.
  unfold count_col. rewrite filter_cons, filter_nil. by rewrite decide_True.
Qed.

Lemma concat_Some a b c :
  concat a b = Some c →
  columns c = columns a ++ filter (λ x, x ∉ columns a) (columns b) ∧
  (body c).*2 = (body a).*2 ++ (body b).*2.
Proof.
  unfold concat. case_decide; [|done]. intros [= <-]. simpl.
  by rewrite range_index_values.
Qed.

Lemma concat_NoDup a b :
  NoDup (columns a) → NoDup (columns b) → is_Some (concat a b).
Proof. intros Ha Hb. unfold concat. rewrite decide_True; [done|by right]. Qed.

Lemma getitem_is_Some df c :
  count_col c (columns df) = 1 →
  getitem df c = Some ((λ p, (p.1, at_col p.2 c)) <$> body df).
Proof. intros. unfold getitem. by rewrite decide_True. Qed.

(** The rows of the result: those of the dimension, then one synthesized
    row per missing key. *)
Lemma column_cells_rows df c :
  column_cells df c = (λ r, at_col r c) <$> (body df).*2.
Proof. unfold column_cells. by rewrite <- list_fmap_compose. Qed.

Lemma at_col_singleton k v : at_col ({[k := v]} : row) k = v.
Proof. unfold at_col. by rewrite lookup_singleton_eq. Qed.

Lemma values_dropna (s : Series cell) :
  values (dropna s) = filter (λ c, isna c = false) (values s).
Proof.
  unfold values, dropna. induction s as [|[i c] s IH]; [done|].
  rewrite filter_cons, fmap_cons, filter_cons. simpl.
  case_decide; simpl; by rewrite <- IH.
Qed.

Lemma is_empty_keyed D k :
  k ∈ columns D → is_empty D = true → body D = [].
Proof.
  unfold is_empty. intros Hk [H|H]%orb_true_iff.
  - by apply bool_decide_eq_true in H.
  - apply bool_decide_eq_true in H. rewrite H in Hk. by apply elem_of_nil in Hk.
Qed.

Lemma values_column df c :
  values ((λ p, (p.1, at_col p.2 c)) <$> body df) = column_cells df c.
Proof. unfold values, column_cells. by rewrite <- list_fmap_compose. Qed.

(** ** Referential closure *)

Section EnforcerProperties.

Context (float_repr : Q → string).
Local Abbreviation astype_str := (astype_str float_repr).
Local Abbreviation str_set := (str_set float_repr).
Local Abbreviation ensure_dim_covers_sales_keys :=
  (ensure_dim_covers_sales_keys float_repr).
Local Abbreviation missing_of := (missing_of float_repr).

Lemma ensure_inv F D k fill_cols D' :
  ensure_dim_covers_sales_keys F D k fill_cols = Some D' →
  count_col k (columns F) = 1 ∧
  (is_empty D = false → count_col k (columns D) = 1) ∧
  ((missing_of F D k = [] ∧ D' = D) ∨
   (missing_of F D k ≠ [] ∧
    concat D {| columns := fill_header fill_cols [k];
                body := (λ p, (p.1, fill_row k fill_cols p.2))
                          <$> range_index ((λ m, {[k := Str m]})
                                             <$> missing_of F D k) |}
    = Some D')).
Proof.
  unfold ensure_dim_covers_sales_keys, missing_of. intros H.
  destruct (getitem F k) as [ks|] eqn:HF.
  2:{ destruct (is_empty D); simpl in H; [done|].
      destruct (getitem D k); simpl in H; done. }
  assert (count_col k (columns F) = 1) as HcF by (by apply getitem_Some in HF as [? _]).
  split; [done|].
  destruct (is_empty D) eqn:HE; simpl in H |- *.
  - split; [done|]. case_decide as Hm; [left|right]; simplify_eq; [done|].
    split; [done|].
    rewrite fill_columns_spec in H; [done|]. apply count_col_singleton.
  - destruct (getitem D k) as [kd|] eqn:HD; simpl in H; [|done].
    split; [by apply getitem_Some in HD as [? _]|].
    case_decide as Hm; [left|right]; simplify_eq; [done|].
    split; [done|].
    rewrite fill_columns_spec in H; [done|]. apply count_col_singleton.
Qed.

Lemma ensure_total F D k fill_cols :
  count_col k (columns F) = 1 → NoDup (columns D) → k ∈ columns D →
  is_Some (ensure_dim_covers_sales_keys F D k fill_cols).
Proof.
  intros HF HD Hk. unfold ensure_dim_covers_sales_keys.
  rewrite (getitem_is_Some F k HF).
  rewrite (getitem_is_Some D k (count_col_NoDup _ _ HD Hk)).
  destruct (is_empty D); simpl;
    (case_decide; [done|]);
    (rewrite fill_columns_spec by apply count_col_singleton); simpl;
    (apply concat_NoDup; [done|]); simpl;
    apply fill_header_NoDup, NoDup_singleton.
Qed.

Lemma ensure_rows F D k fill_cols D' :
  ensure_dim_covers_sales_keys F D k fill_cols = Some D' →
  (body D').*2 =
  (body D).*2 ++ (fill_row k fill_cols <$> ((λ m, {[k := Str m]})
                                              <$> missing_of F D k)).
Proof.
  intros (_ & _ & [[-> ->]|[_ Hc]])%ensure_inv; simpl.
  - by rewrite app_nil_r.
  - apply concat_Some in Hc as [_ ->]. simpl. f_equal.
    rewrite <- list_fmap_compose.
    rewrite <- (range_index_values ((λ m, {[k := Str m]}) <$> missing_of F D k))
      at 2.
    by rewrite <- list_fmap_compose.
Qed.

(** The key column of the result, when the defaults spare the key. *)
Lemma ensure_keys F D k fill_cols D' :
  k ∉ fill_cols.*1 →
  ensure_dim_covers_sales_keys F D k fill_cols = Some D' →
  column_cells D' k = column_cells D k ++ (Str <$> missing_of F D k).
Proof.
  intros Hk HD'. rewrite !column_cells_rows, (ensure_rows _ _ _ _ _ HD').
  rewrite fmap_app. f_equal. rewrite <- !list_fmap_compose.
  apply list_fmap_ext. intros _ m _. simpl.
  by rewrite fill_row_key, at_col_singleton.
Qed.

Lemma elem_of_str_set (s : Series cell) x :
  x ∈ str_set s ↔ x ∈ astype_str <$> values s.
Proof. unfold str_set. apply elem_of_list_to_set. Qed.

(** The missing keys: the texts of the non-null fact keys that are not the
    text of a dimension key. *)
Lemma missing_spec F D k m :
  count_col k (columns F) = 1 → NoDup (columns D) → k ∈ columns D →
  m ∈ missing_of F D k ↔
  (∃ v, v ∈ column_cells F k ∧ isna v = false ∧ astype_str v = m) ∧
  m ∉ astype_str <$> column_cells D k.
Proof.
  intros HF HD Hk. unfold missing_of.
  rewrite (getitem_is_Some F k HF).
  rewrite (getitem_is_Some D k (count_col_NoDup _ _ HD Hk)). simpl.
  rewrite elem_of_sorted, elem_of_difference, elem_of_str_set, values_dropna.
  rewrite values_column.
  assert (m ∈ astype_str <$> filter (λ c, isna c = false) (column_cells F k) ↔
          ∃ v, v ∈ column_cells F k ∧ isna v = false ∧ astype_str v = m) as ->.
  { rewrite list_elem_of_fmap. setoid_rewrite list_elem_of_filter. naive_solver. }
  destruct (is_empty D) eqn:HE.
  - apply (is_empty_keyed _ _ Hk) in HE. unfold column_cells. rewrite HE. simpl.
    split; (intros [? _]; split; [done|]); [apply not_elem_of_nil|set_solver].
  - by rewrite elem_of_str_set, values_column.
Qed.

Lemma ensure_columns F D k fill_cols D' :
  NoDup (columns D) → k ∈ columns D →
  ensure_dim_covers_sales_keys F D k fill_cols = Some D' →
  NoDup (columns D') ∧ k ∈ columns D'.
Proof.
  intros HD Hk (_ & _ & [[_ ->]|[_ Hc]])%ensure_inv; [done|].
  apply concat_Some in Hc as [-> _]. simpl. split; [|set_solver].
  apply NoDup_app. split_and!; [done| |].
  - intros x Hx [Hx' _]%list_elem_of_filter. done.
  - apply NoDup_filter, fill_header_NoDup, NoDup_singleton.
Qed.

(** C1, as amended.  After [ensure_dim_covers_sales_keys] has been applied
    to a dimension [D] against the facts [F] on a key column [k] (with
    default attributes that do not name [k], as for the five foreign keys in
    [load_dw]), the text ([astype(str)]) of every non-null value of [F[k]] is
    the text of a key of the resulting dimension.  When the keys of [D] are
    strings, every string in [F[k]] is itself a key of the result. *)
Theorem closure_by_text F D k fill_cols :
  count_col k (columns F) = 1 → NoDup (columns D) → k ∈ columns D →
  k ∉ fill_cols.*1 →
  ∃ D', ensure_dim_covers_sales_keys F D k fill_cols = Some D' ∧
    (∀ v, v ∈ column_cells F k → isna v = false →
          astype_str v ∈ astype_str <$> column_cells D' k) ∧
    (Forall (λ c, is_str c = true) (column_cells D k) →
     ∀ s, Str s ∈ column_cells F k → Str s ∈ column_cells D' k).
Proof.
  intros HF HD Hk Hfill.
  destruct (ensure_total F D k fill_cols HF HD Hk) as [D' HD'].
  exists D'. split; [done|].
  pose proof (ensure_keys _ _ _ _ _ Hfill HD') as Hkeys.
  assert (∀ v, v ∈ column_cells F k → isna v = false →
               astype_str v ∈ astype_str <$> column_cells D' k) as Hclosed.
  { intros v Hv Hna. rewrite Hkeys, fmap_app, elem_of_app.
    destruct (decide (astype_str v ∈ astype_str <$> column_cells D k))
      as [Hin|Hout]; [by left|right].
    rewrite <- list_fmap_compose. apply list_elem_of_fmap.
    exists (astype_str v). split; [done|].
    apply missing_spec; [done..|]. split; [|done]. by exists v. }
  split; [done|]. intros Hstr s Hs.
  specialize (Hclosed (Str s) Hs eq_refl). simpl in Hclosed.
  apply list_elem_of_fmap in Hclosed as (c & Hc & Hin).
  rewrite Hkeys, elem_of_app in Hin |- *.
  destruct Hin as [Hin|Hin].
  - left. rewrite Forall_forall in Hstr. specialize (Hstr c Hin).
    destruct c; simplify_eq/=. done.
  - right. apply list_elem_of_fmap in Hin as (m & -> & Hm). simpl in Hc.
    subst. apply list_elem_of_fmap. by exists m.
Qed.

(** C2, as amended.  With default attributes that do not name the key
    column, applying [ensure_dim_covers_sales_keys] to its own result, with
    the same fact table, returns that result unchanged. *)
Theorem enforcer_idempotent F D k fill_cols :
  count_col k (columns F) = 1 → NoDup (columns D) → k ∈ columns D →
  k ∉ fill_cols.*1 →
  ∃ D1, ensure_dim_covers_sales_keys F D k fill_cols = Some D1 ∧
        ensure_dim_covers_sales_keys F D1 k fill_cols = Some D1.
Proof.
  intros HF HD Hk Hfill.
  destruct (ensure_total F D k fill_cols HF HD Hk) as [D1 HD1].
  exists D1. split; [done|].
  destruct (ensure_columns _ _ _ _ _ HD Hk HD1) as [HD1n HD1k].
  destruct (ensure_total F D1 k fill_cols HF HD1n HD1k) as [D2 HD2].
  rewrite HD2. f_equal.
  apply ensure_inv in HD2 as (_ & _ & [[_ ->]|[Hne _]]); [done|].
  destruct Hne. apply elem_of_nil_inv. intros m Hm.
  apply missing_spec in Hm as [(v & Hv & Hna & <-) Hout]; [|done..].
  apply Hout. rewrite (ensure_keys _ _ _ _ _ Hfill HD1), fmap_app, elem_of_app.
  destruct (decide (astype_str v ∈ astype_str <$> column_cells D k))
    as [Hin|Hout']; [by left|right].
  rewrite <- list_fmap_compose. apply list_elem_of_fmap.
  exists (astype_str v). split; [done|].
  apply missing_spec; [done..|]. split; [|done]. by exists v.
Qed.

(** C10, as amended.  With default attributes that do not name the key
    column, [ensure_dim_covers_sales_keys] only appends: the rows of the
    input dimension come first, unchanged and in their positions; the keys of
    the appended rows are strings in strictly ascending order, each the text
    of a non-null fact key and the text of no key of the input dimension. *)
Theorem enforcer_append_only F D k fill_cols :
  count_col k (columns F) = 1 → NoDup (columns D) → k ∈ columns D →
  k ∉ fill_cols.*1 →
  ∃ D' added ms,
    ensure_dim_covers_sales_keys F D k fill_cols = Some D' ∧
    (body D').*2 = (body D).*2 ++ added ∧
    (λ r, at_col r k) <$> added = Str <$> ms ∧
    StronglySorted str_le ms ∧ NoDup ms ∧
    ∀ m, m ∈ ms →
      (∃ v, v ∈ column_cells F k ∧ isna v = false ∧ astype_str v = m) ∧
      m ∉ astype_str <$> column_cells D k.
Proof.
  intros HF HD Hk Hfill.
  destruct (ensure_total F D k fill_cols HF HD Hk) as [D' HD'].
  exists D', (fill_row k fill_cols <$> ((λ m, {[k := Str m]}) <$> missing_of F D k)),
    (missing_of F D k).
  split_and!; [done|by apply ensure_rows| |apply sorted_ascending|apply sorted_NoDup|].
  - rewrite <- !list_fmap_compose. apply list_fmap_ext. intros _ m _. simpl.
    by rewrite fill_row_key, at_col_singleton.
  - intros m Hm. by apply missing_spec in Hm.
Qed.

End EnforcerProperties.

(** ** Facts *)

(** *** Masks and alignment *)

Lemma mask_filter_fmap {A : Type} (f : A → bool) (l : list A) :
  mask_filter (f <$> l) l = filter (λ x, f x = true) l.
Proof.
  induction l as [|x l IH]; [done|].
  rewrite fmap_cons, filter_cons. cbn [mask_filter]. rewrite IH.
  by destruct (f x).
Qed.

Lemma loc_fmap {A B : Type} (g : A → B) (l : list (label * A)) i a :
  NoDup l.*1 → (i, a) ∈ l → loc i ((λ p, (p.1, g p.2)) <$> l) = Some (g a).
Proof.
  induction l as [|[j b] l IH]; simpl; intros Hn Hin.
  - by apply elem_of_nil in Hin.
  - apply NoDup_cons in Hn as [Hj Hn].
    apply elem_of_cons in Hin as [[= <- <-]|Hin].
    + by rewrite decide_True.
    + rewrite decide_False; [by apply IH|].
      intros ->. apply Hj. apply list_elem_of_fmap. by exists (i, a).
Qed.

Lemma index_rowwise {A B : Type} (g : A → B) (l : list (label * A)) :
  index ((λ p, (p.1, g p.2)) <$> l) = l.*1.
Proof. unfold index. rewrite <- list_fmap_compose. by apply list_fmap_ext. Qed.

Lemma values_rowwise {A B : Type} (g : A → B) (l : list (label * A)) :
  values ((λ p, (p.1, g p.2)) <$> l) = (λ p, g p.2) <$> l.
Proof. unfold values. rewrite <- list_fmap_compose. by apply list_fmap_ext. Qed.

(** Assigning to a selection of rows a series computed on all of them. *)
Lemma setitem_aligned c (g : row → cell) cols (l l' : list (label * row)) :
  NoDup l.*1 → l' ⊆ l →
  setitem c ((λ p, (p.1, g p.2)) <$> l) {| columns := cols; body := l' |} =
  Some {| columns := with_column c cols;
          body := (λ p, (p.1, <[c := g p.2]> p.2)) <$> l' |}.
Proof.
  intros Hn Hsub. unfold setitem. simpl.
  assert (reindex_for_setitem ((λ p, (p.1, g p.2)) <$> l) l'.*1
          = Some ((λ p, g p.2) <$> l')) as ->.
  { unfold reindex_for_setitem. rewrite index_rowwise, values_rowwise.
    assert ((λ i, default NaN (loc i ((λ p, (p.1, g p.2)) <$> l))) <$> l'.*1
            = (λ p, g p.2) <$> l') as Hloc.
    { rewrite <- list_fmap_compose. apply list_fmap_ext.
      intros _ [i r] Hir%list_elem_of_lookup_2. simpl.
      by rewrite (loc_fmap g l i r Hn (Hsub _ Hir)). }
    rewrite Hloc, (decide_True (P := NoDup l.*1)) by done.
    case_decide as Hidx; [|done]. f_equal.
    rewrite <- Hloc, <- Hidx, <- list_fmap_compose. apply list_fmap_ext.
    intros _ [i r] Hir%list_elem_of_lookup_2. simpl.
    by rewrite (loc_fmap g l i r Hn Hir). }
  simpl. do 2 f_equal. clear.
  induction l' as [|p l' IH]; simpl; [done|by f_equal].
Qed.

(** *** Renaming *)

Lemma assoc_Some {V : Type} k (d : list (string * V)) v :
  assoc k d = Some v → (k, v) ∈ d.
Proof.
  induction d as [|[k' v'] d IH]; simpl; [done|].
  case_decide; [intros [= <-]; subst; left|right; auto].
Qed.

Lemma rename_col_inj (mapping : list (string * string)) (cols : list string)
    c1 c2 :
  NoDup mapping.*2 → Forall (λ d, d ∉ cols) mapping.*2 →
  c1 ∈ cols → c2 ∈ cols →
  rename_col mapping c1 = rename_col mapping c2 → c1 = c2.
Proof.
  intros Hn Hout H1 H2. unfold rename_col.
  rewrite Forall_forall in Hout.
  destruct (assoc c1 mapping) as [d1|] eqn:E1,
           (assoc c2 mapping) as [d2|] eqn:E2; simpl.
  - intros ->. apply assoc_Some in E1, E2.
    clear -Hn E1 E2.
    induction mapping as [|[a b] m IH]; [by apply elem_of_nil in E1|].
    simpl in Hn. apply NoDup_cons in Hn as [Hb Hn].
    apply elem_of_cons in E1 as [E1|E1]; apply elem_of_cons in E2 as [E2|E2];
      simplify_eq.
    + done.
    + destruct Hb. apply list_elem_of_fmap. by exists (c2, b).
    + destruct Hb. apply list_elem_of_fmap. by exists (c1, b).
    + by apply IH.
  - intros ->. apply assoc_Some in E1. destruct (Hout c2); [|done].
    apply list_elem_of_fmap. by exists (c1, c2).
  - intros <-. apply assoc_Some in E2. destruct (Hout c1); [|done].
    apply list_elem_of_fmap. by exists (c2, c1).
  - done.
Qed.

Lemma rename_columns_NoDup mapping df :
  NoDup mapping.*2 → Forall (λ d, d ∉ columns df) mapping.*2 →
  NoDup (columns df) → NoDup (columns (rename mapping df)).
Proof.
  intros Hn Hout Hc. simpl. apply NoDup_fmap_2_strong; [|done].
  intros c1 c2 H1 H2. by apply (rename_col_inj mapping (columns df)).
Qed.

Lemma at_col_rename (mapping : list (string * string)) (cols : list string)
    (r : row) c :
  NoDup mapping.*2 → Forall (λ d, d ∉ cols) mapping.*2 → NoDup cols →
  c ∈ cols →
  at_col (rename_row (rename_col mapping) cols r) (rename_col mapping c)
  = at_col r c.
Proof.
  intros Hn Hout Hc Hin. unfold at_col at 1, rename_row.
  erewrite elem_of_list_to_map_1; [done| |].
  - rewrite <- list_fmap_compose. simpl.
    apply NoDup_fmap_2_strong; [|done].
    intros c1 c2 H1 H2. by apply (rename_col_inj mapping cols).
  - apply list_elem_of_fmap. by exists c.
Qed.

(** *** [normalize_sales], row by row *)

Lemma smap_rowwise {A B C : Type} (f : B → C) (g : A → B) (l : list (label * A)) :
  smap f ((λ p, (p.1, g p.2)) <$> l) = (λ p, (p.1, f (g p.2))) <$> l.
Proof. unfold smap. by rewrite <- list_fmap_compose. Qed.

Lemma smap_smap {A B C : Type} (f : B → C) (g : A → B) (s : Series A) :
  smap f (smap g s) = smap (f ∘ g) s.
Proof. unfold smap. by rewrite <- list_fmap_compose. Qed.

Lemma with_column_elem c cols : c ∈ cols → with_column c cols = cols.
Proof. intros. unfold with_column. by rewrite decide_True. Qed.

Lemma bind_Some {A B : Type} (x : A) (f : A → option B) : Some x ≫= f = f x.
Proof. done. Qed.

(** [df[c] = f(df[c])], element by element. *)
Lemma assign_step c (f : cell → cell) df :
  NoDup (columns df) → c ∈ columns df →
  getitem df c ≫= (λ s, setitem c (smap f s) df) =
  Some {| columns := columns df;
          body := (λ p, (p.1, <[c := f (at_col p.2 c)]> p.2)) <$> body df |}.
Proof.
  intros Hn Hc. rewrite (getitem_is_Some df c (count_col_NoDup _ _ Hn Hc)).
  rewrite bind_Some, (smap_rowwise f (λ r : row, at_col r c)).
  rewrite (setitem_rowwise c (λ r, f (at_col r c)) df). simpl.
  by rewrite with_column_elem.
Qed.

Lemma setitem_step c (f : cell → cell) df :
  c ∈ columns df →
  setitem c (smap f ((λ p, (p.1, at_col p.2 c)) <$> body df)) df =
  Some {| columns := columns df;
          body := (λ p, (p.1, <[c := f (at_col p.2 c)]> p.2)) <$> body df |}.
Proof.
  intros Hc. rewrite (smap_rowwise f (λ r : row, at_col r c)).
  rewrite (setitem_rowwise c (λ r, f (at_col r c)) df).
  by rewrite with_column_elem.
Qed.

Lemma get_column df c d :
  NoDup (columns df) → c ∈ columns df →
  get df c d = Some (inl ((λ p, (p.1, at_col p.2 c)) <$> body df)).
Proof.
  intros Hn Hc. unfold get. rewrite decide_True by done.
  by rewrite (getitem_is_Some df c (count_col_NoDup _ _ Hn Hc)).
Qed.

Section SalesProperties.

Context (float_repr : Q → string) (to_numeric_str : string → option Q)
  (strptime : string → option Timestamp).
Local Abbreviation astype_str := (astype_str float_repr).
Local Abbreviation series_astype_str := (series_astype_str float_repr).
Local Abbreviation to_numeric := (to_numeric to_numeric_str).
Local Abbreviation _num := (_num to_numeric_str).
Local Abbreviation parse_date := (parse_date strptime).
Local Abbreviation to_datetime := (to_datetime strptime).
Local Abbreviation normalize_sales :=
  (normalize_sales float_repr to_numeric_str strptime).
Local Abbreviation fact_row := (fact_row float_repr to_numeric_str strptime).

Lemma sales_renamed df c :
  sales_ready df → c ∈ SALES_RENAME.*2 →
  NoDup (columns (rename SALES_RENAME df)) ∧
  c ∈ columns (rename SALES_RENAME df).
Proof.
  intros (Hn & Hh & _) Hc. split.
  - apply rename_columns_NoDup; [by apply (bool_decide_unpack _)| |done].
    rewrite Forall_fmap. eapply Forall_impl; [exact Hh|]. by intros ? [_ ?].
  - apply list_elem_of_fmap in Hc as ([src dst] & -> & Hp). simpl.
    rewrite Forall_forall in Hh. destruct (Hh _ Hp) as [Hsrc _].
    apply list_elem_of_fmap. exists src. split; [|done].
    clear -Hp. unfold SALES_RENAME in Hp.
    repeat (apply elem_of_cons in Hp as [[= -> ->]|Hp]; [by vm_compute|]).
    by apply elem_of_nil in Hp.
Qed.

Lemma _num_int (s : Series cell) :
  _num s true = smap (λ c, Int (astype_int (default 0%Q (to_numeric c)))) s.
Proof. unfold _num. by rewrite smap_smap. Qed.

Lemma _num_float (s : Series cell) :
  _num s false = smap (λ c, Flt (default 0%Q (to_numeric c))) s.
Proof. unfold _num. by rewrite smap_smap. Qed.

Lemma mask_of_dates (l : list (label * row)) :
  mask_filter
    (values (notna (to_datetime ((λ p, (p.1, at_col p.2 "date")) <$> l)))) l
  = filter (λ p, is_Some (parse_date (at_col p.2 "date"))) l.
Proof.
  induction l as [|p l IH]; [done|]. rewrite filter_cons, <- IH. simpl.
  destruct (parse_date (at_col p.2 "date")) as [t|] eqn:E.
  - rewrite bool_decide_eq_true_2, decide_True; done.
  - rewrite bool_decide_eq_false_2, decide_False; [done|by inv 1..].
Qed.

Lemma strftime_of_dates (l : list (label * row)) :
  dt_strftime (to_datetime ((λ p, (p.1, at_col p.2 "date")) <$> l))
  = (λ p, (p.1, from_option (λ t, Str (strftime t)) NaN
                  (parse_date (at_col p.2 "date")))) <$> l.
Proof.
  unfold dt_strftime, to_datetime, smap. by rewrite <- !list_fmap_compose.
Qed.

Lemma normalize_sales_rows df :
  sales_ready df →
  normalize_sales df =
  Some {| columns := columns (rename SALES_RENAME df);
          body := (λ p, (p.1, fact_row p.2))
                    <$> filter (λ p, is_Some (parse_date (at_col p.2 "date")))
                          (body (rename SALES_RENAME df)) |}.
Proof.
  intros Hready. pose proof Hready as (_ & _ & Hlabels).
  assert (∀ c, c ∈ SALES_RENAME.*2 →
            NoDup (columns (rename SALES_RENAME df)) ∧
            c ∈ columns (rename SALES_RENAME df)) as Hcols
    by (intros; by apply sales_renamed).
  unfold normalize_sales.
  assert ((body (rename SALES_RENAME df)).*1 = (body df).*1) as Hidx.
  { simpl. rewrite <- list_fmap_compose. by apply list_fmap_ext. }
  set (df1 := rename SALES_RENAME df) in *.
  destruct (Hcols "date") as [Hn Hdate]; [by apply (bool_decide_unpack _)|].
  destruct (Hcols "quantity") as [_ Hq]; [by apply (bool_decide_unpack _)|].
  destruct (Hcols "sales_amount") as [_ Ha]; [by apply (bool_decide_unpack _)|].
  destruct (Hcols "store_id") as [_ Hs]; [by apply (bool_decide_unpack _)|].
  destruct (Hcols "payment_method_id") as [_ Hp];
    [by apply (bool_decide_unpack _)|].
  destruct (Hcols "campaign_id") as [_ Hc]; [by apply (bool_decide_unpack _)|].
  clear Hcols.
  rewrite (getitem_is_Some df1 "date" (count_col_NoDup _ _ Hn Hdate)), bind_Some.
  (* the mask and the aligned assignment of the dates *)
  unfold getitem_mask. rewrite mask_of_dates, strftime_of_dates.
  rewrite (setitem_aligned "date"
             (λ r, from_option (λ t, Str (strftime t)) NaN
                     (parse_date (at_col r "date"))));
    [|by rewrite Hidx|by intros p [_ ?]%list_elem_of_filter].
  rewrite bind_Some, with_column_elem by done.
  (* the five element-wise assignments *)
  rewrite getitem_is_Some by (by apply count_col_NoDup).
  rewrite bind_Some, _num_int, setitem_step by done. rewrite bind_Some.
  rewrite getitem_is_Some by (by apply count_col_NoDup).
  rewrite bind_Some, _num_float, setitem_step by done. rewrite bind_Some.
  rewrite get_column by done. rewrite bind_Some. unfold got_astype_str.
  rewrite bind_Some. unfold series_astype_str.
  rewrite smap_smap, setitem_step by done. rewrite bind_Some.
  rewrite get_column by done. rewrite !bind_Some.
  rewrite smap_smap, setitem_step by done. rewrite bind_Some.
  rewrite getitem_is_Some by (by apply count_col_NoDup).
  rewrite bind_Some, smap_smap, setitem_step by done. rewrite bind_Some.
  simpl. do 2 f_equal. rewrite <- !list_fmap_compose.
  by apply list_fmap_ext.
Qed.

Lemma sales_source_cell df src dst (r : row) :
  sales_ready df → (src, dst) ∈ SALES_RENAME →
  at_col (rename_row (rename_col SALES_RENAME) (columns df) r) dst
  = at_col r src.
Proof.
  intros (Hn & Hh & _) Hp.
  assert (rename_col SALES_RENAME src = dst) as <-.
  { clear -Hp. unfold SALES_RENAME in Hp.
    repeat (apply elem_of_cons in Hp as [[= -> ->]|Hp]; [by vm_compute|]).
    by apply elem_of_nil in Hp. }
  apply at_col_rename; [by apply (bool_decide_unpack _)| |done|].
  - rewrite Forall_fmap. eapply Forall_impl; [exact Hh|]. by intros ? [_ ?].
  - rewrite Forall_forall in Hh. by destruct (Hh _ Hp).
Qed.

(** The facts, in terms of the rows of the cleaned file: the rows whose
    [SaleDate] parses, each renamed and normalized, under its own label. *)
Lemma normalize_sales_source df :
  sales_ready df →
  normalize_sales df =
  Some {| columns := rename_col SALES_RENAME <$> columns df;
          body := (λ p, (p.1, fact_row (rename_row (rename_col SALES_RENAME)
                                          (columns df) p.2)))
                    <$> filter (λ p, is_Some (parse_date (at_col p.2 "SaleDate")))
                          (body df) |}.
Proof.
  intros Hready. rewrite (normalize_sales_rows df Hready). simpl. do 2 f_equal.
  induction (body df) as [|p l IH]; [done|].
  rewrite fmap_cons, !filter_cons. simpl.
  rewrite (sales_source_cell df "SaleDate" "date" p.2 Hready)
    by (by apply (bool_decide_unpack _)).
  case_decide; [rewrite fmap_cons; simpl|]; by rewrite IH.
Qed.

Lemma fact_row_quantity (r : row) :
  fact_row r !! "quantity" =
  Some (Int (astype_int (default 0%Q (to_numeric (at_col r "quantity"))))).
Proof.
  unfold fact_row. rewrite !lookup_insert_ne, lookup_insert_eq by done.
  unfold at_col. by rewrite lookup_insert_ne.
Qed.

Lemma fact_row_store_id (r : row) :
  fact_row r !! "store_id" =
  Some (replace_cell [(EmptyString, Str "UNKNOWN-STORE")]
          (Str (astype_str (at_col r "store_id")))).
Proof.
  unfold fact_row. rewrite !lookup_insert_ne, lookup_insert_eq by done.
  unfold at_col. by rewrite !lookup_insert_ne.
Qed.

Lemma fact_row_payment_method_id (r : row) :
  fact_row r !! "payment_method_id" =
  Some (replace_cell [(EmptyString, Str "UNKNOWN")]
          (Str (astype_str (at_col r "payment_method_id")))).
Proof.
  unfold fact_row. rewrite !lookup_insert_ne, lookup_insert_eq by done.
  unfold at_col. by rewrite !lookup_insert_ne.
Qed.

Lemma kept_labels (l : list (label * row)) :
  (filter (λ p, is_Some (parse_date p.2))
     ((λ p : label * row, (p.1, at_col p.2 "SaleDate")) <$> l)).*1
  = (filter (λ p, is_Some (parse_date (at_col p.2 "SaleDate"))) l).*1.
Proof.
  induction l as [|p l IH]; [done|]. rewrite fmap_cons, !filter_cons.
  cbn [fst snd]. destruct (parse_date (at_col p.2 "SaleDate")) eqn:E.
  - rewrite !decide_True by done. rewrite !fmap_cons. by rewrite IH.
  - by rewrite !decide_False by (by inv 1).
Qed.

Lemma dropped_count (l : list (label * row)) :
  length (filter (λ p, is_Some (parse_date (at_col p.2 "SaleDate"))) l)
  + length (filter (λ p, parse_date p.2 = None)
              ((λ p : label * row, (p.1, at_col p.2 "SaleDate")) <$> l))
  = length l.
Proof.
  induction l as [|p l IH]; [done|]. rewrite fmap_cons, !filter_cons.
  cbn [fst snd]. destruct (parse_date (at_col p.2 "SaleDate")) eqn:E.
  - rewrite decide_True, decide_False by done. cbn [length]. lia.
  - rewrite decide_False, decide_True by (done || by inv 1). cbn [length]. lia.
Qed.


Lemma fact_rows df out :
  sales_ready df → normalize_sales df = Some out →
  ∀ i r', (i, r') ∈ body out ↔
    ∃ r, (i, r) ∈ body df ∧ is_Some (parse_date (at_col r "SaleDate")) ∧
         r' = fact_row (rename_row (rename_col SALES_RENAME) (columns df) r).
Proof.
  intros Hready Hout i r'. rewrite (normalize_sales_source df Hready) in Hout.
  injection Hout as <-. cbn [body]. rewrite list_elem_of_fmap. split.
  - intros ([j r] & [= -> ->] & [Hp Hin]%list_elem_of_filter). by exists r.
  - intros (r & Hin & Hp & ->). exists (i, r). split; [done|].
    by apply list_elem_of_filter.
Qed.

Lemma astype_int_0 : astype_int 0%Q = 0%Z.
Proof. by vm_compute. Qed.

Lemma astype_int_nonneg (q : Q) :
  (0 <= q)%Q → (q < inject_Z (2 ^ 63))%Q → (0 ≤ astype_int q)%Z.
Proof.
  destruct q as [n d]. unfold Qle, Qlt, astype_int. cbn [Qnum Qden inject_Z].
  intros Hn Hlt.
  assert (0 ≤ n)%Z as Hn' by lia.
  assert (0 ≤ n ÷ Z.pos d)%Z by (apply Z.quot_pos; lia).
  assert (n ÷ Z.pos d < 2 ^ 63)%Z by (apply Z.quot_lt_upper_bound; lia).
  rewrite bool_decide_eq_true_2 by lia. done.
Qed.


Lemma normalize_payment_nonempty (pm : cell) :
  normalize_payment float_repr pm ≠ EmptyString.
Proof.
  unfold normalize_payment. destruct (_ || _); [done|].
  unfold PAYMENT_CANON, assoc. repeat case_decide; done.
Qed.

(** C8, as amended.  On a cleaned sales table, the [payment_method_id] of a
    fact row is the text of the input's [PaymentMethod], with ["UNKNOWN"] for
    the empty text; nothing is canonicalized.  A value that already is a
    canonical token (a result of [normalize_payment]) is therefore kept as
    it is. *)
Theorem payment_method_passes_through df :
  sales_ready df →
  ∃ out, normalize_sales df = Some out ∧
    ∀ i r, (i, r) ∈ body df → is_Some (parse_date (at_col r "SaleDate")) →
      ∃ r', (i, r') ∈ body out ∧
        r' !! "payment_method_id" =
          Some (if decide (astype_str (at_col r "PaymentMethod") = EmptyString)
                then Str "UNKNOWN"
                else Str (astype_str (at_col r "PaymentMethod"))) ∧
        ∀ pm, at_col r "PaymentMethod" = Str (normalize_payment float_repr pm) →
              r' !! "payment_method_id"
              = Some (Str (normalize_payment float_repr pm)).
Proof.
  intros Hready. eexists. split; [by apply normalize_sales_source|].
  intros i r Hin Hdate. eexists. split.
  { apply (fact_rows df _ Hready (normalize_sales_source df Hready)).
    by exists r. }
  rewrite fact_row_payment_method_id.
  rewrite (sales_source_cell df "PaymentMethod" "payment_method_id" r Hready)
    by (by apply (bool_decide_unpack _)).
  assert (∀ s, replace_cell [(EmptyString, Str "UNKNOWN")] (Str s)
               = if decide (s = EmptyString) then Str "UNKNOWN" else Str s)
    as Hrep.
  { intros s. simpl. by destruct (decide (EmptyString = s)), (decide (s = EmptyString)). }
  rewrite Hrep. split; [done|]. intros pm ->. simpl.
  by rewrite decide_False by apply normalize_payment_nonempty.
Qed.

(** What [normalize_sales] does with [StoreID] and [PaymentMethod]: the text
    of the cell, with the sentinel for the empty text only.  A missing cell
    (NaN, as [pd.read_csv] reads an empty field) has the text ["nan"] and
    is not replaced. *)
Lemma sentinels_replace_only_empty_text df :
  sales_ready df →
  ∃ out, normalize_sales df = Some out ∧
    ∀ i r, (i, r) ∈ body df → is_Some (parse_date (at_col r "SaleDate")) →
      ∃ r', (i, r') ∈ body out ∧
        r' !! "store_id" =
          Some (if decide (astype_str (at_col r "StoreID") = EmptyString)
                then Str "UNKNOWN-STORE"
                else Str (astype_str (at_col r "StoreID"))) ∧
        r' !! "payment_method_id" =
          Some (if decide (astype_str (at_col r "PaymentMethod") = EmptyString)
                then Str "UNKNOWN"
                else Str (astype_str (at_col r "PaymentMethod"))) ∧
        (at_col r "StoreID" = NaN → r' !! "store_id" = Some (Str "nan")) ∧
        (at_col r "PaymentMethod" = NaN →
         r' !! "payment_method_id" = Some (Str "nan")).
Proof.
  intros Hready. eexists. split; [by apply normalize_sales_source|].
  intros i r Hin Hdate. eexists. split.
  { apply (fact_rows df _ Hready (normalize_sales_source df Hready)).
    by exists r. }
  rewrite fact_row_store_id, fact_row_payment_method_id.
  rewrite (sales_source_cell df "StoreID" "store_id" r Hready)
    by (by apply (bool_decide_unpack _)).
  rewrite (sales_source_cell df "PaymentMethod" "payment_method_id" r Hready)
    by (by apply (bool_decide_unpack _)).
  assert (∀ s v, replace_cell [(EmptyString, v)] (Str s)
                 = if decide (s = EmptyString) then v else Str s) as Hrep.
  { intros s v. simpl.
    by destruct (decide (EmptyString = s)), (decide (s = EmptyString)). }
  rewrite !Hrep. split_and!; [done|done|by intros ->|by intros ->].
Qed.

End SalesProperties.

(** ** The calendar *)

Lemma dict_heads {A : Type} (fs : list (string * (A → cell))) i a
    (s : Series A) :
  omap (λ p : string * list cell, (λ v, (p.1, v)) <$> head p.2)
    ((λ cf, (cf.1, values (smap cf.2 ((i, a) :: s)))) <$> fs)
  = (λ cf, (cf.1, cf.2 a)) <$> fs.
Proof. induction fs as [|cf fs IH]; [done|]. cbn. by f_equal. Qed.

Lemma dict_tails {A : Type} (fs : list (string * (A → cell))) i a
    (s : Series A) :
  (λ p : string * list cell, (p.1, tail p.2))
    <$> ((λ cf, (cf.1, values (smap cf.2 ((i, a) :: s)))) <$> fs)
  = (λ cf, (cf.1, values (smap cf.2 s))) <$> fs.
Proof. rewrite <- list_fmap_compose. by apply list_fmap_ext. Qed.

Lemma rows_of_dict_rowwise {A : Type} (fs : list (string * (A → cell)))
    (s : Series A) :
  rows_of_dict s.*1 ((λ cf, (cf.1, values (smap cf.2 s))) <$> fs)
  = (λ p, (p.1, list_to_map ((λ cf, (cf.1, cf.2 p.2)) <$> fs))) <$> s.
Proof.
  induction s as [|[i a] s IH]; [done|].
  rewrite !fmap_cons. cbn [rows_of_dict fst snd].
  by rewrite dict_heads, dict_tails, IH.
Qed.

Lemma somes_values (strptime : string → option Timestamp)
    (l : list (label * row)) :
  (somes (to_datetime strptime ((λ p, (p.1, at_col p.2 "date")) <$> l))).*2
  = omap (parse_date strptime) ((λ p, at_col p.2 "date") <$> l).
Proof.
  induction l as [|[i r] l IH]; [done|]. cbn.
  destruct (parse_date strptime (at_col r "date")); cbn; by rewrite <- IH.
Qed.

(** *** Dropping duplicates *)

Lemma drop_duplicates_from_elem {A : Type} seen (key : A → cell) l p :
  p ∈ drop_duplicates_from seen key l → p ∈ l ∧ key p.2 ∉ seen.
Proof.
  revert seen. induction l as [|q l IH]; intros seen; simpl.
  - by intros ?%elem_of_nil.
  - case_decide as Hq.
    + intros [? ?]%IH. split; [by right|done].
    + intros [->|[? Hk]%IH]%elem_of_cons; [split; [by left|done]|].
      split; [by right|]. intros ?. apply Hk. by right.
Qed.

Lemma drop_duplicates_from_NoDup {A : Type} seen (key : A → cell) l :
  NoDup ((λ p, key p.2) <$> drop_duplicates_from seen key l).
Proof.
  revert seen. induction l as [|q l IH]; intros seen; simpl.
  - constructor.
  - case_decide as Hq; [apply IH|]. rewrite fmap_cons. constructor; [|apply IH].
    intros (p & Hp & [_ Hk]%drop_duplicates_from_elem)%list_elem_of_fmap.
    apply Hk. rewrite Hp. by left.
Qed.

Lemma drop_duplicates_from_cover {A : Type} seen (key : A → cell) l p :
  p ∈ l →
  key p.2 ∈ seen ∨ key p.2 ∈ (λ p, key p.2) <$> drop_duplicates_from seen key l.
Proof.
  revert seen. induction l as [|q l IH]; intros seen; simpl.
  - by intros ?%elem_of_nil.
  - intros [->|Hin]%elem_of_cons.
    + case_decide; [by left|right]. rewrite fmap_cons. by left.
    + case_decide; [by apply IH|].
      destruct (IH (key q.2 :: seen) Hin) as [[->|?]%elem_of_cons|?].
      * right. rewrite fmap_cons. by left.
      * by left.
      * right. rewrite fmap_cons. by right.
Qed.

(** *** Sorting rows by a column of strings *)

#[global] Instance row_le_total c : Total (row_le c).
Proof. intros p q. apply (total str_le). Qed.

#[global] Instance row_le_trans c : Transitive (row_le c).
Proof. intros p q r. apply (transitivity (R := str_le)). Qed.

Lemma sort_values_keys c (l : list (label * row)) :
  StronglySorted str_le (str_key c <$> merge_sort (row_le c) l).
Proof.
  apply (StronglySorted_fmap _ (row_le c)); [done|].
  apply Sorted_StronglySorted; [apply _|]. apply Sorted_merge_sort, _.
Qed.

Lemma drop_duplicates_Some c df :
  count_col c (columns df) = 1 →
  drop_duplicates c df =
  Some {| columns := columns df;
          body := drop_duplicates_from [] (λ r, at_col r c) (body df) |}.
Proof. intros Hc. unfold drop_duplicates. by rewrite getitem_is_Some. Qed.

Lemma sort_values_Some c df :
  count_col c (columns df) = 1 →
  Forall (λ p, is_str (at_col p.2 c) = true) (body df) →
  sort_values c df =
  Some {| columns := columns df; body := merge_sort (row_le c) (body df) |}.
Proof.
  intros Hc Hstr. unfold sort_values. rewrite getitem_is_Some, bind_Some by done.
  rewrite values_column. unfold column_cells.
  assert (forallb is_str ((λ p : label * row, at_col p.2 c) <$> body df) = true)
    as ->; [|done].
  induction Hstr as [|p l Hp _ IH]; [done|]. cbn. by rewrite Hp, IH.
Qed.

Lemma at_col_calendar_date t : at_col (calendar_row t) "date" = Str (strftime t).
Proof. done. Qed.

Lemma is_weekend_spec t :
  (is_weekend t = 1 ↔ dayofweek t = 5 ∨ dayofweek t = 6)%Z
  ∧ (is_weekend t = 0 ∨ is_weekend t = 1)%Z.
Proof.
  unfold is_weekend. case_bool_decide as H.
  - split; [|by right]. split; [|done]. intros _.
    by apply elem_of_cons in H as [?|[?|?%elem_of_nil]%elem_of_cons]; [left|right|].
  - split; [|by left]. split; [done|]. intros [E|E]; destruct H; rewrite E.
    + by left.
    + right. by left.
Qed.

Section CalendarProperties.

Context (strptime : string → option Timestamp).
Local Abbreviation build_dates_from_sales := (build_dates_from_sales strptime).
Local Abbreviation valid_dates := (valid_dates strptime).

(** The calendar: the first row of each date text, sorted by that text. *)
Lemma build_dates_rows F :
  count_col "date" (columns F) = 1 →
  build_dates_from_sales F =
  Some {| columns := CALENDAR.*1;
          body := merge_sort (row_le "date")
                    (drop_duplicates_from [] (λ r, at_col r "date")
                       ((λ p, (p.1, calendar_row p.2))
                          <$> somes (to_datetime strptime
                                       ((λ p, (p.1, at_col p.2 "date"))
                                          <$> body F)))) |}.
Proof.
  intros Hc. unfold build_dates_from_sales.
  rewrite getitem_is_Some, bind_Some by done.
  set (s := somes _).
  assert (frame_of_dict
            [("date", smap (λ t, Str (strftime t)) s);
             ("year", smap (λ t, Int (year t)) s);
             ("quarter", smap (λ t, Int (quarter t)) s);
             ("month", smap (λ t, Int (month t)) s);
             ("day", smap (λ t, Int (day t)) s);
             ("is_weekend", smap (λ t, Int (is_weekend t)) s)]
          = {| columns := CALENDAR.*1;
               body := (λ p, (p.1, calendar_row p.2)) <$> s |}) as ->.
  { unfold frame_of_dict. f_equal.
    etrans; [|exact (rows_of_dict_rowwise CALENDAR s)].
    f_equal. exact (index_rowwise (λ t, Str (strftime t)) s). }
  rewrite drop_duplicates_Some by done. rewrite bind_Some.
  rewrite sort_values_Some; [done|done|]. cbn [body].
  apply Forall_forall. intros p [Hp _]%drop_duplicates_from_elem.
  by apply list_elem_of_fmap in Hp as (q & -> & _).
Qed.


End CalendarProperties.

(** ** The warehouse *)

Lemma lookup_wiped (s : store) t :
  wiped s !! t = if decide (t ∈ TABLES) then Some [] else s !! t.
Proof.
  unfold wiped, TABLES. cbn [foldl].
  rewrite !lookup_insert. repeat case_decide; try done; set_solver.
Qed.

Lemma lookup_create_tables (s : store) t :
  create_tables s !! t
  = if decide (t ∈ TABLES) then Some (default [] (s !! t)) else s !! t.
Proof.
  unfold create_tables. induction TABLES as [|t' l IH]; [done|].
  cbn [foldr]. set (F := foldr create_if_not_exists s l) in *.
  destruct (decide (t = t')) as [<-|Hne].
  - rewrite decide_True by (by left). unfold create_if_not_exists.
    destruct (F !! t) as [x|] eqn:E.
    + rewrite E. case_decide; [done|]. by rewrite <- IH.
    + rewrite lookup_insert_eq. case_decide; [done|]. by rewrite <- IH.
  - assert (create_if_not_exists t' F !! t = F !! t) as ->.
    { unfold create_if_not_exists. destruct (F !! t'); [done|].
      by rewrite lookup_insert_ne. }
    rewrite IH. repeat case_decide; try done; set_solver.
Qed.

Lemma wiped_create_tables (s : store) : wiped (create_tables s) = wiped s.
Proof.
  apply map_eq. intros t. rewrite !lookup_wiped, lookup_create_tables.
  by case_decide.
Qed.

Lemma wiped_wiped (s : store) : wiped (wiped s) = wiped s.
Proof. apply map_eq. intros t. rewrite !lookup_wiped. by case_decide. Qed.

Lemma create_tables_again (s : store) :
  create_tables (create_tables s) = create_tables s.
Proof.
  apply map_eq. intros t. rewrite !lookup_create_tables.
  by case_decide.
Qed.

Lemma wiped_insert (s : store) t x : t ∈ TABLES → wiped (<[t := x]> s) = wiped s.
Proof.
  intros Ht. apply map_eq. intros t'. rewrite !lookup_wiped.
  case_decide; [done|]. rewrite lookup_insert_ne; [done|]. by intros ->.
Qed.

Section WarehouseProperties.

Context (accepts : string → store → row → bool).
Local Abbreviation insert_rows := (insert_rows accepts).
Local Abbreviation insert_all := (insert_all accepts).
Local Abbreviation write_tables := (write_tables accepts).

Lemma insert_rows_wiped t rows (w w' : store) :
  t ∈ TABLES → insert_rows t rows w = Some w' → wiped w' = wiped w.
Proof.
  intros Ht. revert w. induction rows as [|r rows IH]; intros w; simpl.
  - by intros [= ->].
  - destruct (accepts t w r); [|done]. intros ->%IH. by apply wiped_insert.
Qed.

Lemma insert_all_wiped steps (c w : store) :
  Forall (λ p, p.1 ∈ TABLES) steps → wiped c = wiped w →
  wiped (insert_all steps c w).2 = wiped w.
Proof.
  intros Hs. revert c w. induction Hs as [|[t df] rest Ht _ IH]; intros c w Hc.
  - done.
  - simpl. destruct (insert_rows t (body df).*2 w) as [w'|] eqn:E; [|done].
    rewrite IH by done. by apply insert_rows_wiped in E.
Qed.

Lemma ddl_step {A : Type} (k : db A) c :
  (executescript_DDL ;;; k) c
  = k {| disk := create_tables (current c); txn := None |}.
Proof. done. Qed.

Lemma delete_step {A : Type} (k : db A) c :
  (for_each execute_delete
     ["sales"; "payment_methods"; "campaigns"; "stores"; "products";
      "customers"; "dates"] ;;; k) c
  = k {| disk := disk c; txn := Some (wiped (current c)) |}.
Proof. done. Qed.

Lemma to_sql_step {A : Type} df t (k : db A) c :
  (to_sql accepts df t ;;; k) c
  = match insert_rows t (body df).*2 (current c) with
    | Some w => k {| disk := w; txn := None |}
    | None => (None, {| disk := disk c; txn := None |})
    end.
Proof.
  unfold db_bind, to_sql. by destruct (insert_rows t (body df).*2 (current c)).
Qed.

(** What the block on the connection leaves: the tables are created and
    wiped, the frames are inserted in order, and each insertion that goes
    through is committed; should one fail, the disk keeps the state of the
    last commit. *)
Lemma write_tables_run tb (s : store) :
  with_connection (write_tables tb) s =
  let r := insert_all (load_order tb) (create_tables s)
             (wiped (create_tables s)) in
  (if r.1 then Some (row_counts r.2) else None, r.2).
Proof.
  unfold with_connection, write_tables, load_order.
  rewrite ddl_step, delete_step.
  cbn [current disk txn default from_option id insert_all].
  repeat (rewrite to_sql_step; cbn [current disk txn default from_option id];
          match goal with
          | |- context [insert_rows ?t ?rows ?w] =>
              destruct (insert_rows t rows w) eqn:?
          end; [|done]).
  done.
Qed.

Lemma insert_all_again t df rest (s : store) :
  t ∈ TABLES → Forall (λ p, p.1 ∈ TABLES) rest →
  let run s := insert_all ((t, df) :: rest) (create_tables s)
                 (wiped (create_tables s)) in
  run (run s).2 = run s.
Proof.
  intros Ht Hrest run. unfold run.
  set (s0 := create_tables s). set (e := wiped s0).
  assert (wiped e = e) as He by apply wiped_wiped.
  change (insert_all ((t, df) :: rest) s0 e)
    with (match insert_rows t (body df).*2 e with
          | Some w' => insert_all rest w' w'
          | None => (false, s0)
          end).
  destruct (insert_rows t (body df).*2 e) as [w1|] eqn:E1.
  - assert (wiped (insert_all rest w1 w1).2 = e) as Hw.
    { rewrite insert_all_wiped by done.
      by rewrite (insert_rows_wiped t (body df).*2 e w1). }
    rewrite wiped_create_tables, Hw.
    change (insert_all ((t, df) :: rest) ?c e)
      with (match insert_rows t (body df).*2 e with
            | Some w' => insert_all rest w' w'
            | None => (false, c)
            end).
    by rewrite E1.
  - cbn [snd]. unfold s0 at 1 2. rewrite create_tables_again.
    fold s0. fold e.
    change (insert_all ((t, df) :: rest) s0 e)
      with (match insert_rows t (body df).*2 e with
            | Some w' => insert_all rest w' w'
            | None => (false, s0)
            end).
    by rewrite E1.
Qed.

(** Running the block again on the store it left gives the same outcome and
    the same store. *)
Lemma write_tables_again tb (s : store) :
  with_connection (write_tables tb) (with_connection (write_tables tb) s).2
  = with_connection (write_tables tb) s.
Proof.
  rewrite !write_tables_run. cbv zeta. cbn [snd].
  pose proof (insert_all_again "dates" (dates_df tb)
                [("customers", customers_df tb); ("products", products_df tb);
                 ("stores", stores_df tb); ("campaigns", campaigns_df tb);
                 ("payment_methods", methods_df tb); ("sales", sales_df tb)] s)
    as Hrun.
  unfold load_order. cbv zeta in Hrun. rewrite Hrun; [done|..];
    by apply (bool_decide_unpack _).
Qed.

(** When the six dimensions go in and a sales row is refused, the run
    raises and the disk holds the new dimensions with an empty [sales]
    table: the deletions and the dimensions were committed by the earlier
    [to_sql] calls. *)
Lemma refused_sales_leave_dimensions tb (s w : store) :
  insert_all [("dates", dates_df tb); ("customers", customers_df tb);
              ("products", products_df tb); ("stores", stores_df tb);
              ("campaigns", campaigns_df tb);
              ("payment_methods", methods_df tb)]
    (create_tables s) (wiped (create_tables s)) = (true, w) →
  insert_rows "sales" (body (sales_df tb)).*2 w = None →
  with_connection (write_tables tb) s = (None, w).
Proof.
  intros Hdims Hsales. rewrite write_tables_run. unfold load_order.
  cbn [insert_all] in Hdims |- *.
  repeat match type of Hdims with
         | context [insert_rows ?t ?rows ?x] =>
             destruct (insert_rows t rows x) eqn:?; [|done]
         end.
  injection Hdims as ->. by rewrite Hsales.
Qed.

End WarehouseProperties.

Section LoadProperties.

Context (float_repr : Q → string) (to_numeric_str : string → option Q)
  (strptime : string → option Timestamp)
  (accepts : string → store → row → bool).
Local Abbreviation load_dw :=
  (load_dw float_repr to_numeric_str strptime accepts).

Lemma load_dw_again fs (s : store) : load_dw fs (load_dw fs s).2 = load_dw fs s.
Proof.
  unfold load_dw. destruct (build_tables _ _ _ fs) as [tb|]; [|done].
  apply write_tables_again.
Qed.

(** C9.  Running [load_dw] a second time on the same cleaned files, over the
    store the first run left, reports the same row counts (or raises as the
    first run did) and leaves the same number of rows in each of the seven
    tables. *)
Theorem full_refresh_deterministic fs (s : store) :
  (load_dw fs (load_dw fs s).2).1 = (load_dw fs s).1 ∧
  row_counts (load_dw fs (load_dw fs s).2).2 = row_counts (load_dw fs s).2.
Proof. by rewrite load_dw_again. Qed.

End LoadProperties.

(** ** Flags and payment tokens *)

Section TokenProperties.

Context (float_repr : Q → string).
Local Abbreviation _yn_to_int := (_yn_to_int float_repr).
Local Abbreviation yn_flag := (yn_flag float_repr).
Local Abbreviation normalize_payment := (normalize_payment float_repr).

Lemma yn_flag_bit (c : cell) : yn_flag c = 0%Z ∨ yn_flag c = 1%Z.
Proof. unfold yn_flag, YN, assoc. repeat case_decide; simpl; auto. Qed.

Lemma yn_flag_again (c : cell) : yn_flag (Int (yn_flag c)) = yn_flag c.
Proof. by destruct (yn_flag_bit c) as [-> | ->]. Qed.

(** X1.  [_yn_to_int] keeps the index, yields only the integers 0 and 1, and
    is stable: applied to its own result it changes nothing. *)
Theorem yn_to_int_stable (s : Series cell) :
  index (_yn_to_int s) = index s ∧
  Forall (λ c, c = Int 0 ∨ c = Int 1) (values (_yn_to_int s)) ∧
  _yn_to_int (_yn_to_int s) = _yn_to_int s.
Proof.
  assert (∀ x, _yn_to_int x = (λ p, (p.1, Int (yn_flag p.2))) <$> x) as Hyn
    by done.
  rewrite !Hyn. split_and!.
  - apply (index_rowwise (λ c, Int (yn_flag c))).
  - rewrite (values_rowwise (λ c, Int (yn_flag c))).
    apply Forall_fmap, Forall_true.
    intros [i c]. simpl. destruct (yn_flag_bit c) as [-> | ->]; auto.
  - rewrite <- list_fmap_compose. apply list_fmap_ext. intros _ [i c] _.
    simpl. by rewrite yn_flag_again.
Qed.

Lemma normalize_payment_token (pm : cell) : normalize_payment pm ∈ PAYMENT_TOKENS.
Proof.
  unfold normalize_payment. destruct (_ || _); [by apply (bool_decide_unpack _)|].
  unfold PAYMENT_CANON, assoc.
  repeat case_decide; by apply (bool_decide_unpack _).
Qed.

(** X2.  [normalize_payment] always returns one of the seven canonical tokens
    or ["Unknown"]; a missing value gives ["Unknown"]; and it is idempotent:
    a token it returned is returned unchanged. *)
Theorem normalize_payment_canonical (pm : cell) :
  normalize_payment pm ∈ PAYMENT_TOKENS ∧
  (isna pm = true → normalize_payment pm = "Unknown") ∧
  normalize_payment (Str (normalize_payment pm)) = normalize_payment pm.
Proof.
  split_and!.
  - apply normalize_payment_token.
  - unfold normalize_payment. by intros ->.
  - pose proof (normalize_payment_token pm) as H. unfold PAYMENT_TOKENS in H.
    repeat (apply elem_of_cons in H as [-> | H]; [by vm_compute|]).
    by apply elem_of_nil in H.
Qed.

End TokenProperties.

(** ** The customer and product normalizers *)

Lemma assoc_NoDup {V : Type} k (v : V) (d : list (string * V)) :
  NoDup d.*1 → (k, v) ∈ d → assoc k d = Some v.
Proof.
  induction d as [|[k' v'] d IH]; simpl; intros Hn Hin.
  - by apply elem_of_nil in Hin.
  - apply NoDup_cons in Hn as [Hk Hn].
    apply elem_of_cons in Hin as [[= -> ->]|Hin].
    + by rewrite decide_True.
    + rewrite decide_False; [by apply IH|]. intros ->. apply Hk.
      apply list_elem_of_fmap. by exists (k, v).
Qed.

(** After renaming a file with the expected header: the column names stay
    unique, every target name is there, and holds the cell of its source. *)
Lemma renamed_header (mapping : list (string * string)) df :
  NoDup mapping.*1 → NoDup mapping.*2 → has_header mapping df →
  NoDup (columns (rename mapping df)) ∧
  ∀ src dst, (src, dst) ∈ mapping →
    dst ∈ columns (rename mapping df) ∧
    ∀ r : row, at_col (rename_row (rename_col mapping) (columns df) r) dst
               = at_col r src.
Proof.
  intros Hn1 Hn2 [Hn Hh].
  assert (Forall (λ d, d ∉ columns df) mapping.*2) as Hout.
  { rewrite Forall_fmap. eapply Forall_impl; [exact Hh|]. by intros ? [_ ?]. }
  split; [by apply rename_columns_NoDup|].
  intros src dst Hp.
  assert (rename_col mapping src = dst) as <-.
  { unfold rename_col. by rewrite (assoc_NoDup src dst mapping). }
  rewrite Forall_forall in Hh. destruct (Hh _ Hp) as [Hsrc _].
  split.
  - apply list_elem_of_fmap. by exists src.
  - intros r. by apply at_col_rename.
Qed.

Lemma select_Some cols df :
  NoDup (columns df) → cols ⊆ columns df →
  select cols df =
  Some {| columns := cols;
          body := (λ p, (p.1, list_to_map ((λ c, (c, at_col p.2 c)) <$> cols)))
                    <$> body df |}.
Proof.
  intros Hn Hsub. unfold select. rewrite decide_True; [done|].
  apply Forall_forall. intros c Hc. by apply count_col_NoDup, Hsub.
Qed.

Lemma select_None cols df c :
  c ∈ cols → c ∉ columns df → select cols df = None.
Proof.
  intros Hc Hout. unfold select. rewrite decide_False; [done|].
  rewrite Forall_forall. intros H. specialize (H c Hc).
  apply count_col_0 in Hout. lia.
Qed.

Lemma at_col_selected (cols : list string) (r : row) c :
  c ∈ cols →
  at_col (list_to_map ((λ c, (c, at_col r c)) <$> cols)) c = at_col r c.
Proof.
  intros Hc. unfold at_col at 1.
  induction cols as [|c' cols IH]; [by apply elem_of_nil in Hc|].
  rewrite fmap_cons. cbn [list_to_map foldr]. simpl.
  destruct (decide (c' = c)) as [->|Hne].
  - by rewrite lookup_insert_eq.
  - rewrite lookup_insert_ne by done. apply IH.
    by apply elem_of_cons in Hc as [?|?].
Qed.

Lemma at_col_insert_eq (r : row) c v : at_col (<[c := v]> r) c = v.
Proof. unfold at_col. by rewrite lookup_insert_eq. Qed.

Lemma at_col_insert_ne (r : row) c c' v :
  c' ≠ c → at_col (<[c' := v]> r) c = at_col r c.
Proof. intros. unfold at_col. by rewrite lookup_insert_ne. Qed.

Lemma getitem_None df c : c ∉ columns df → getitem df c = None.
Proof.
  intros H. apply count_col_0 in H. unfold getitem.
  rewrite decide_False; [done|lia].
Qed.

Lemma setitem_columns c s df df' :
  setitem c s df = Some df' → columns df' = with_column c (columns df).
Proof.
  unfold setitem. destruct (reindex_for_setitem _ _); [|done].
  by intros [= <-].
Qed.

Lemma with_column_other k c cols : k ≠ c → k ∉ cols → k ∉ with_column c cols.
Proof.
  intros Hne Hk. unfold with_column. case_decide; [done|].
  by intros [?|?%list_elem_of_singleton]%elem_of_app.
Qed.

(** A target name whose source column the file lacks is not in the renamed
    header either, unless the file already has a column of that name. *)
Lemma renamed_missing (mapping : list (string * string)) df src dst :
  NoDup mapping.*2 → (src, dst) ∈ mapping →
  src ∉ columns df → dst ∉ columns df →
  dst ∉ columns (rename mapping df).
Proof.
  intros Hn Hp Hs Hd (c & Heq & Hc)%list_elem_of_fmap.
  unfold rename_col in Heq.
  destruct (assoc c mapping) as [d|] eqn:E; simpl in Heq; subst.
  - apply assoc_Some in E. apply Hs.
    replace src with c; [done|]. clear -Hn Hp E.
    induction mapping as [|[a b] m IH]; [by apply elem_of_nil in E|].
    simpl in Hn. apply NoDup_cons in Hn as [Hb Hn].
    apply elem_of_cons in Hp as [Hp|Hp]; apply elem_of_cons in E as [E|E];
      simplify_eq.
    + done.
    + destruct Hb. apply list_elem_of_fmap. by exists (c, b).
    + destruct Hb. apply list_elem_of_fmap. by exists (src, b).
    + by apply IH.
  - done.
Qed.

(** One statement of a normalizer, for a frame that lacks the column [dst]:
    reading [dst] raises, any other statement leaves [dst] absent. *)
Ltac raise_step dst :=
  lazymatch goal with
  | H : dst ∉ columns ?X |- getitem ?X dst ≫= _ = None =>
      by rewrite (getitem_None X dst H)
  | H : dst ∉ columns ?X |- (get ?X dst _ ≫= _) ≫= _ = None =>
      unfold get; rewrite decide_False by exact H; reflexivity
  | H : dst ∉ columns ?X |- select ?cols ?X = None =>
      by apply (select_None cols X dst); [apply (bool_decide_unpack _)|exact H]
  | |- getitem ?X ?c ≫= _ = None =>
      destruct (getitem X c) as [?|]; [rewrite bind_Some|done]
  | |- (get ?X ?c ?d ≫= ?k) ≫= _ = None =>
      destruct (get X c d ≫= k) as [?|]; [rewrite bind_Some|done]
  | H : dst ∉ columns ?X |- setitem ?c ?s ?X ≫= _ = None =>
      let E := fresh "E" in
      let X' := fresh "df" in
      destruct (setitem c s X) as [X'|] eqn:E; [|done];
      rewrite bind_Some; apply setitem_columns in E;
      assert (dst ∉ columns X')
        by (rewrite E; apply with_column_other; [done|exact H]);
      clear E H
  end.

Section NormalizerProperties.

Context (float_repr : Q → string) (to_numeric_str : string → option Q).
Local Abbreviation _yn_to_int := (_yn_to_int float_repr).
Local Abbreviation yn_flag := (yn_flag float_repr).
Local Abbreviation to_numeric := (to_numeric to_numeric_str).
Local Abbreviation _num := (_num to_numeric_str).
Local Abbreviation normalize_customers := (normalize_customers float_repr).
Local Abbreviation normalize_products :=
  (normalize_products float_repr to_numeric_str).

Lemma yn_to_int_flags (s : Series cell) :
  _yn_to_int s = smap (λ c, Int (yn_flag c)) s.
Proof. done. Qed.

(** X3.  On a customers file with the expected header, [normalize_customers]
    drops and reorders no row, returns exactly the six canonical columns,
    carries the five descriptive cells through unchanged, and turns
    [EmailOptIn] into the flag 0 or 1. *)
Theorem normalize_customers_rows df :
  has_header CUSTOMERS_RENAME df →
  ∃ out, normalize_customers df = Some out ∧
    columns out = CUSTOMER_COLUMNS ∧
    Forall2 (λ p p',
               p'.1 = p.1 ∧
               at_col p'.2 "customer_id" = at_col p.2 "CustomerID" ∧
               at_col p'.2 "name" = at_col p.2 "Name" ∧
               at_col p'.2 "region" = at_col p.2 "Region" ∧
               at_col p'.2 "join_date" = at_col p.2 "JoinDate" ∧
               at_col p'.2 "last_purchase_date" = at_col p.2 "LastPurchaseDate" ∧
               at_col p'.2 "email_opt_in"
               = Int (yn_flag (at_col p.2 "EmailOptIn")) ∧
               (yn_flag (at_col p.2 "EmailOptIn") = 0%Z
                ∨ yn_flag (at_col p.2 "EmailOptIn") = 1%Z))
      (body df) (body out).
Proof.
  intros Hh.
  destruct (renamed_header CUSTOMERS_RENAME df) as [Hn Hcols];
    [by apply (bool_decide_unpack _)..|done|].
  assert (CUSTOMER_COLUMNS ⊆ columns (rename CUSTOMERS_RENAME df)) as Hsub.
  { intros c Hc. change CUSTOMER_COLUMNS with CUSTOMERS_RENAME.*2 in Hc.
    apply list_elem_of_fmap in Hc as ([src dst] & -> & Hp).
    by apply (Hcols src dst). }
  unfold normalize_customers.
  rewrite getitem_is_Some, bind_Some
    by (apply count_col_NoDup; [done|apply Hsub; by apply (bool_decide_unpack _)]).
  rewrite yn_to_int_flags, setitem_step
    by (apply Hsub; by apply (bool_decide_unpack _)).
  rewrite bind_Some. fold CUSTOMER_COLUMNS.
  rewrite select_Some by done.
  eexists. split; [done|]. split; [done|]. cbn [body rename].
  rewrite <- !list_fmap_compose. apply Forall2_fmap_r, Forall_Forall2_diag.
  apply Forall_true. intros [i r]. cbn [fst snd compose].
  split; [done|].
  rewrite !at_col_selected by (by apply (bool_decide_unpack _)).
  rewrite !at_col_insert_ne, at_col_insert_eq by done.
  repeat match goal with
    | |- context [at_col (rename_row _ _ _) ?dst] =>
        match eval vm_compute in
              (head (filter (λ p : string * string, p.2 = dst) CUSTOMERS_RENAME))
        with Some (?src, _) =>
          let H := fresh in
          destruct (Hcols src dst) as [_ H];
          [by apply (bool_decide_unpack _)|rewrite H; clear H]
        end
    end.
  split_and!; try done. apply yn_flag_bit.
Qed.


(** X5.  A customers file that lacks one of the six source columns (and
    has no column already carrying its target name) makes
    [normalize_customers] raise, whichever column it is. *)
Theorem normalize_customers_missing_column df src dst :
  (src, dst) ∈ CUSTOMERS_RENAME →
  src ∉ columns df → dst ∉ columns df →
  normalize_customers df = None.
Proof.
  intros Hp Hs Hd.
  assert (dst ∉ columns (rename CUSTOMERS_RENAME df)) as Hm
    by (apply (renamed_missing _ _ src); [by apply (bool_decide_unpack _)|done..]).
  clear Hs Hd. unfold normalize_customers.
  set (df1 := rename CUSTOMERS_RENAME df) in *. clearbody df1.
  unfold CUSTOMERS_RENAME in Hp.
  repeat (apply elem_of_cons in Hp as [[= -> ->]|Hp];
          [match type of Hm with ?d ∉ _ => repeat raise_step d end|]).
  by apply elem_of_nil in Hp.
Qed.

(** X6.  The same for [normalize_products] and its six source columns. *)
Theorem normalize_products_missing_column df src dst :
  (src, dst) ∈ PRODUCTS_RENAME →
  src ∉ columns df → dst ∉ columns df →
  normalize_products df = None.
Proof.
  intros Hp Hs Hd.
  assert (dst ∉ columns (rename PRODUCTS_RENAME df)) as Hm
    by (apply (renamed_missing _ _ src); [by apply (bool_decide_unpack _)|done..]).
  clear Hs Hd. unfold normalize_products.
  set (df1 := rename PRODUCTS_RENAME df) in *. clearbody df1.
  unfold PRODUCTS_RENAME in Hp.
  repeat (apply elem_of_cons in Hp as [[= -> ->]|Hp];
          [match type of Hm with ?d ∉ _ => repeat raise_step d end|]).
  by apply elem_of_nil in Hp.
Qed.

End NormalizerProperties.

(** ** More on the fact builder *)

Lemma assoc_None {V : Type} k (d : list (string * V)) :
  k ∉ d.*1 → assoc k d = None.
Proof.
  induction d as [|[k' v'] d IH]; simpl; [done|].
  intros [Hne Hk]%not_elem_of_cons. rewrite decide_False by done. by apply IH.
Qed.

Section FactProperties.

Context (float_repr : Q → string) (to_numeric_str : string → option Q)
  (strptime : string → option Timestamp).
Local Abbreviation astype_str := (astype_str float_repr).
Local Abbreviation to_numeric := (to_numeric to_numeric_str).
Local Abbreviation parse_date := (parse_date strptime).
Local Abbreviation normalize_sales :=
  (normalize_sales float_repr to_numeric_str strptime).
Local Abbreviation fact_row := (fact_row float_repr to_numeric_str strptime).

(** X7.  A sales file that lacks the source of a column [normalize_sales]
    works on (and has no column already carrying the target name) makes it
    raise.  This includes [StoreID] and [PaymentMethod]: the default passed
    to [df.get] is a plain string, on which [.astype] fails. *)
Theorem normalize_sales_missing_column df src dst :
  (src, dst) ∈ SALES_RENAME → dst ∈ SALES_TOUCHED →
  src ∉ columns df → dst ∉ columns df →
  normalize_sales df = None.
Proof.
  intros Hp Ht Hs Hd.
  assert (dst ∉ columns (rename SALES_RENAME df)) as Hm
    by (apply (renamed_missing _ _ src); [by apply (bool_decide_unpack _)|done..]).
  clear Hp Hs Hd. unfold normalize_sales.
  set (df1 := rename SALES_RENAME df) in *. clearbody df1.
  unfold SALES_TOUCHED in Ht.
  repeat (apply elem_of_cons in Ht as [->|Ht];
          [first
             [ by rewrite (getitem_None df1 _ Hm)
             | destruct (getitem df1 "date") as [d|];
               [rewrite bind_Some; cbv beta zeta|done];
               match goal with
               | |- context [getitem_mask df1 ?m] =>
                   set (df2 := getitem_mask df1 m)
               end;
               match type of Hm with
               | ?d ∉ _ =>
                   assert (d ∉ columns df2) as Hm2 by exact Hm;
                   clear Hm; clearbody df2; repeat raise_step d
               end ] |]).
  by apply elem_of_nil in Ht.
Qed.

Lemma fact_row_other (x : row) c :
  c ∉ SALES_TOUCHED → at_col (fact_row x) c = at_col x c.
Proof.
  unfold SALES_TOUCHED. rewrite !not_elem_of_cons. intros (?&?&?&?&?&?&_).
  unfold fact_row. cbv zeta. by rewrite !at_col_insert_ne.
Qed.

Lemma fact_row_date (x : row) :
  at_col (fact_row x) "date"
  = from_option (λ t, Str (strftime t)) NaN (parse_date (at_col x "date")).
Proof.
  unfold fact_row. cbv zeta.
  by rewrite !at_col_insert_ne, at_col_insert_eq by done.
Qed.

Lemma fact_row_sales_amount (x : row) :
  at_col (fact_row x) "sales_amount"
  = Flt (default 0%Q (to_numeric (at_col x "sales_amount"))).
Proof.
  unfold fact_row. cbv zeta.
  by rewrite !at_col_insert_ne, at_col_insert_eq, !at_col_insert_ne by done.
Qed.

Lemma fact_row_campaign_id (x : row) :
  at_col (fact_row x) "campaign_id"
  = replace_cell [(EmptyString, PyNone); ("nan", PyNone)]
      (Str (astype_str (at_col x "campaign_id"))).
Proof.
  unfold fact_row. cbv zeta.
  by rewrite at_col_insert_eq, !at_col_insert_ne by done.
Qed.



End FactProperties.

(** ** Derived dimensions and the enforcer *)

Lemma at_col_zip (new : list string) (vals : list cell) i c v :
  NoDup new → length new = length vals →
  new !! i = Some c → vals !! i = Some v →
  at_col (list_to_map (zip new vals)) c = v.
Proof.
  intros Hn Hlen Hc Hv. unfold at_col.
  erewrite elem_of_list_to_map_1; [done| |].
  - rewrite fst_zip by lia. done.
  - apply list_elem_of_lookup. exists i. apply lookup_zip_with_Some.
    by exists c, v.
Qed.

Lemma fill_row_spares k fill_cols (r : row) c :
  c ∉ fill_cols.*1 → at_col (fill_row k fill_cols r) c = at_col r c.
Proof.
  revert r. induction fill_cols as [|[a v] rest IH]; intros r Hc; [done|].
  simpl in Hc. apply not_elem_of_cons in Hc as [Hne Hc].
  change (fill_row k ((a, v) :: rest) r)
    with (fill_row k rest (<[a := fill_value k r v]> r)).
  rewrite (IH _ Hc). by apply at_col_insert_ne.
Qed.

Lemma fill_value_key k (r r' : row) v :
  at_col r' k = at_col r k → fill_value k r' v = fill_value k r v.
Proof. intros H. destruct v; simpl; by rewrite ?H. Qed.

Lemma fill_row_attr k fill_cols (r : row) a v :
  NoDup fill_cols.*1 → k ∉ fill_cols.*1 → (a, v) ∈ fill_cols →
  at_col (fill_row k fill_cols r) a = fill_value k r v.
Proof.
  revert r. induction fill_cols as [|[c x] rest IH]; intros r Hn Hk Hin.
  { by apply elem_of_nil in Hin. }
  simpl in Hn, Hk. apply NoDup_cons in Hn as [Hc Hn].
  apply not_elem_of_cons in Hk as [Hne Hk].
  change (fill_row k ((c, x) :: rest) r)
    with (fill_row k rest (<[c := fill_value k r x]> r)).
  apply elem_of_cons in Hin as [[= -> ->]|Hin].
  - by rewrite fill_row_spares, at_col_insert_eq.
  - rewrite (IH _ Hn Hk Hin). apply fill_value_key. by apply at_col_insert_ne.
Qed.

Lemma fill_header_fresh k fill_cols :
  NoDup fill_cols.*1 → k ∉ fill_cols.*1 →
  fill_header fill_cols [k] = k :: fill_cols.*1.
Proof.
  intros Hn Hk. unfold fill_header.
  assert (∀ cols, NoDup (cols ++ fill_cols.*1) →
            foldl (λ cols cv, with_column cv.1 cols) cols fill_cols
            = cols ++ fill_cols.*1) as H.
  { clear. induction fill_cols as [|[c v] rest IH]; intros cols Hn; simpl.
    - by rewrite app_nil_r.
    - simpl in Hn. rewrite IH.
      + unfold with_column. rewrite decide_False; [by rewrite <- app_assoc|].
        apply NoDup_app in Hn as (_ & Hd & _). intros Hc. apply (Hd c Hc).
        by left.
      + unfold with_column. rewrite decide_False.
        * by rewrite <- app_assoc.
        * apply NoDup_app in Hn as (_ & Hd & _). intros Hc. apply (Hd c Hc).
          by left. }
  apply (H [k]). simpl. by apply NoDup_cons.
Qed.

(** A cell of a row rebuilt by [df.columns = new]. *)
Ltac zip_cell i :=
  apply (at_col_zip _ _ i); [done|done|done|]; try done; cbn;
  by rewrite ?at_col_insert_ne, ?at_col_insert_eq, ?at_col_singleton by done.

Section DimensionProperties.

Context (float_repr : Q → string).
Local Abbreviation astype_str := (astype_str float_repr).
Local Abbreviation series_astype_str := (series_astype_str float_repr).
Local Abbreviation build_dim_from_sales := (build_dim_from_sales float_repr).
Local Abbreviation ensure_dim_covers_sales_keys :=
  (ensure_dim_covers_sales_keys float_repr).
Local Abbreviation missing_of := (missing_of float_repr).
Local Abbreviation key_series := (key_series float_repr).
Local Abbreviation covered := (covered float_repr).

(** The key texts, and where they come from. *)
Lemma key_series_spec F k :
  NoDup (values (key_series F k)) ∧
  (∀ c, c ∈ values (key_series F k) ↔
        ∃ v, v ∈ column_cells F k ∧ isna v = false ∧ c = Str (astype_str v)) ∧
  ∀ i c, (i, c) ∈ key_series F k →
    ∃ r, (i, r) ∈ body F ∧ isna (at_col r k) = false ∧
         c = Str (astype_str (at_col r k)).
Proof.
  unfold key_series, series_drop_duplicates.
  set (l := series_astype_str _).
  assert (∀ i c, (i, c) ∈ l ↔
            ∃ r, (i, r) ∈ body F ∧ isna (at_col r k) = false ∧
                 c = Str (astype_str (at_col r k))) as Hl.
  { intros i c. unfold l, series_astype_str, smap, dropna.
    rewrite list_elem_of_fmap. split.
    - intros ([j x] & [= -> ->] & [Hna Hin]%list_elem_of_filter).
      apply list_elem_of_fmap in Hin as ([j' r] & [= -> ->] & Hin).
      by exists r.
    - intros (r & Hin & Hna & ->). exists (i, at_col r k). split; [done|].
      apply list_elem_of_filter. split; [done|].
      apply list_elem_of_fmap. by exists (i, r). }
  split_and!.
  - apply (drop_duplicates_from_NoDup [] (@id cell) l).
  - intros c. unfold values. rewrite list_elem_of_fmap. split.
    + intros ([i c'] & -> & [Hin _]%drop_duplicates_from_elem).
      apply Hl in Hin as (r & Hin & Hna & ->). exists (at_col r k).
      split_and!; [|done..]. apply list_elem_of_fmap. by exists (i, r).
    + intros (v & Hv & Hna & ->).
      apply list_elem_of_fmap in Hv as ([i r] & -> & Hin).
      destruct (drop_duplicates_from_cover [] (@id cell) l
                  (i, Str (astype_str (at_col r k))))
        as [?%elem_of_nil|Hc]; [|done|].
      { apply Hl. by exists r. }
      apply list_elem_of_fmap in Hc as (p & Hp & Hpin).
      exists p. by split.
  - intros i c [Hin _]%drop_duplicates_from_elem. by apply Hl.
Qed.

(** What [build_dim_from_sales] returns for the three schemas of [load_dw]:
    one row per key text, holding the key and the default attributes. *)
Lemma build_dim_rowwise F schema k fill_cols :
  (schema, k, fill_cols) ∈ DERIVED → count_col k (columns F) = 1 →
  ∃ R : cell → row,
    build_dim_from_sales F k schema
    = Some {| columns := k :: fill_cols.*1;
              body := (λ p, (p.1, R p.2)) <$> key_series F k |} ∧
    (∀ x, at_col (R x) k = x) ∧
    (∀ x a v, (a, v) ∈ fill_cols → at_col (R x) a = fill_value k (R x) v).
Proof.
  intros Hd HF. unfold DERIVED in Hd.
  apply elem_of_cons in Hd as [[= -> -> ->]|Hd];
    [|apply elem_of_cons in Hd as [[= -> -> ->]|Hd];
      [|apply elem_of_cons in Hd as [[= -> -> ->]|Hd];
        [|by apply elem_of_nil in Hd]]].
  - set (new := ["store_id"; "store_name"; "region"]).
    exists (λ x, list_to_map
                   (zip new
                      (at_col (<["region" := Str EmptyString]>
                                 (<["store_name" := Str EmptyString]>
                                    ({["store_id" := x]} : row))) <$> new))).
    assert (NoDup new) as Hnew by (by apply (bool_decide_unpack _)).
    split_and!.
    + unfold build_dim_from_sales. rewrite getitem_is_Some, bind_Some by done.
      rewrite decide_True by done. unfold set_columns, setitem_scalar, to_frame.
      cbn [columns body].
      change (with_column "region" (with_column "store_name" ["store_id"]))
        with new.
      rewrite decide_True by done. unfold key_series.
      rewrite <- !list_fmap_compose. done.
    + intros x. zip_cell 0.
    + intros x a v Hin. unfold STORE_FILL in Hin.
      apply elem_of_cons in Hin as [[= -> ->]|Hin];
        [|apply elem_of_cons in Hin as [[= -> ->]|Hin];
          [|by apply elem_of_nil in Hin]].
      * cbn [fill_value]. zip_cell 1.
      * cbn [fill_value]. zip_cell 2.
  - set (new := ["campaign_id"; "campaign_name"; "start_date"; "end_date"]).
    exists (λ x, list_to_map
                   (zip new
                      (at_col (<["end_date" := Str EmptyString]>
                                 (<["start_date" := Str EmptyString]>
                                    (<["campaign_name" := Str EmptyString]>
                                       ({["campaign_id" := x]} : row))))
                         <$> new))).
    assert (NoDup new) as Hnew by (by apply (bool_decide_unpack _)).
    split_and!.
    + unfold build_dim_from_sales. rewrite getitem_is_Some, bind_Some by done.
      rewrite decide_False, decide_True by done.
      unfold set_columns, setitem_scalar, to_frame.
      cbn [columns body].
      change (with_column "end_date"
                (with_column "start_date"
                   (with_column "campaign_name" ["campaign_id"])))
        with new.
      rewrite decide_True by done. unfold key_series.
      rewrite <- !list_fmap_compose. done.
    + intros x. zip_cell 0.
    + intros x a v Hin. unfold CAMPAIGN_FILL in Hin.
      apply elem_of_cons in Hin as [[= -> ->]|Hin];
        [|apply elem_of_cons in Hin as [[= -> ->]|Hin];
          [|apply elem_of_cons in Hin as [[= -> ->]|Hin];
            [|by apply elem_of_nil in Hin]]].
      * cbn [fill_value]. zip_cell 1.
      * cbn [fill_value]. zip_cell 2.
      * cbn [fill_value]. zip_cell 3.
  - set (new := ["payment_method_id"; "method_name"]).
    exists (λ x, list_to_map
                   (zip new
                      (at_col (<["method_name" := x]>
                                 ({["payment_method_id" := x]} : row))
                         <$> new))).
    assert (NoDup new) as Hnew by (by apply (bool_decide_unpack _)).
    assert (∀ x, at_col (list_to_map
                   (zip new
                      (at_col (<["method_name" := x]>
                                 ({["payment_method_id" := x]} : row))
                         <$> new))) "payment_method_id" = x) as Hkey.
    { intros x. zip_cell 0. }
    split_and!; [|done|].
    + unfold build_dim_from_sales. rewrite getitem_is_Some, bind_Some by done.
      rewrite !decide_False, decide_True by done.
      rewrite getitem_is_Some by apply count_col_singleton.
      rewrite bind_Some.
      rewrite (setitem_rowwise "method_name"
                 (λ r, at_col r "payment_method_id")).
      rewrite bind_Some. unfold set_columns, to_frame. cbn [columns body].
      change (with_column "method_name" ["payment_method_id"]) with new.
      rewrite decide_True by done. unfold key_series.
      rewrite <- !list_fmap_compose.
      do 2 f_equal; apply list_fmap_ext; intros _ [i x] _; cbn;
        by rewrite at_col_singleton.
    + intros x a v Hin. unfold METHOD_FILL in Hin.
      apply elem_of_cons in Hin as [[= -> ->]|Hin];
        [|by apply elem_of_nil in Hin].
      cbn [fill_value]. rewrite Hkey. zip_cell 1.
Qed.

(** X10.  For the three dimensions [load_dw] derives from the facts,
    [build_dim_from_sales] returns the key column followed by the
    attributes; one row for each distinct text of a non-null fact key,
    under the label of a fact row that holds it; blank attributes, and the
    key itself as [method_name]. *)
Theorem derived_dimension_rows F schema k fill_cols :
  (schema, k, fill_cols) ∈ DERIVED → count_col k (columns F) = 1 →
  ∃ D, build_dim_from_sales F k schema = Some D ∧
    columns D = k :: fill_cols.*1 ∧
    NoDup (column_cells D k) ∧
    (∀ c, c ∈ column_cells D k ↔
          ∃ v, v ∈ column_cells F k ∧ isna v = false ∧ c = Str (astype_str v)) ∧
    ∀ i r, (i, r) ∈ body D →
      (∃ r0, (i, r0) ∈ body F ∧ isna (at_col r0 k) = false ∧
             at_col r k = Str (astype_str (at_col r0 k))) ∧
      ∀ a v, (a, v) ∈ fill_cols → at_col r a = fill_value k r v.
Proof.
  intros Hd HF.
  destruct (build_dim_rowwise F schema k fill_cols Hd HF)
    as (R & -> & Hkey & Hattr).
  destruct (key_series_spec F k) as (Hn & Hin & Hlab).
  eexists. split; [done|]. split; [done|].
  assert (column_cells
            {| columns := k :: fill_cols.*1;
               body := (λ p, (p.1, R p.2)) <$> key_series F k |} k
          = values (key_series F k)) as Hcells.
  { unfold column_cells, values. cbn [body]. rewrite <- list_fmap_compose.
    apply list_fmap_ext. intros _ p _. apply Hkey. }
  rewrite Hcells. split_and!; [done..|].
  intros i r ([j x] & [= -> ->] & Hp)%list_elem_of_fmap. cbn [fst snd].
  split; [|by apply Hattr]. rewrite Hkey. by apply Hlab.
Qed.

(** A dimension that covers the fact keys is returned as it is. *)
Lemma ensure_covered F D k fill_cols :
  count_col k (columns F) = 1 → NoDup (columns D) → k ∈ columns D →
  covered F D k →
  ensure_dim_covers_sales_keys F D k fill_cols = Some D.
Proof.
  intros HF HD Hk Hcov.
  destruct (ensure_total float_repr F D k fill_cols HF HD Hk) as [D' HD'].
  rewrite HD'. f_equal.
  apply ensure_inv in HD' as (_ & _ & [[_ ->]|[Hne _]]); [done|].
  destruct Hne. apply elem_of_nil_inv. intros m Hm.
  apply missing_spec in Hm as [(v & Hv & Hna & <-) Hout]; [|done..].
  by apply Hout, Hcov.
Qed.

Lemma ensure_covers F D k fill_cols D' :
  NoDup (columns D) → k ∈ columns D → k ∉ fill_cols.*1 →
  ensure_dim_covers_sales_keys F D k fill_cols = Some D' →
  covered F D' k.
Proof.
  intros HD Hk Hfill HD' v Hv Hna.
  pose proof (ensure_inv _ _ _ _ _ _ HD') as (HF & _).
  rewrite (ensure_keys _ _ _ _ _ _ Hfill HD'), fmap_app, elem_of_app.
  destruct (decide (astype_str v ∈ astype_str <$> column_cells D k))
    as [Hin|Hout]; [by left|right].
  rewrite <- list_fmap_compose. apply list_elem_of_fmap.
  exists (astype_str v). split; [done|].
  apply missing_spec; [done..|]. split; [|done]. by exists v.
Qed.

(** X11.  The enforcer returns the very dimension it was given exactly
    when that dimension already covers the facts: the text of every
    non-null fact key is the text of a dimension key.  Nothing is then
    appended and no label changes. *)
Theorem enforcer_noop_iff_covered F D k fill_cols :
  count_col k (columns F) = 1 → NoDup (columns D) → k ∈ columns D →
  ensure_dim_covers_sales_keys F D k fill_cols = Some D ↔ covered F D k.
Proof.
  intros HF HD Hk. split; [|by apply ensure_covered].
  intros HD' v Hv Hna.
  destruct (decide (astype_str v ∈ astype_str <$> column_cells D k))
    as [Hin|Hout]; [done|exfalso].
  assert (astype_str v ∈ missing_of F D k) as Hm.
  { apply missing_spec; [done..|]. split; [|done]. by exists v. }
  apply ensure_rows in HD'.
  apply (f_equal length) in HD'. rewrite length_app, !length_fmap in HD'.
  destruct (missing_of F D k); [by apply elem_of_nil in Hm|]. simpl in HD'. lia.
Qed.

(** X12.  In [load_dw] the enforcer finds nothing to add to the stores,
    campaigns and payment methods: a dimension built from the facts by
    [build_dim_from_sales] covers them, and comes back unchanged. *)
Theorem derived_dimension_is_closed F schema k fill_cols :
  (schema, k, fill_cols) ∈ DERIVED → count_col k (columns F) = 1 →
  ∃ D, build_dim_from_sales F k schema = Some D ∧
       ensure_dim_covers_sales_keys F D k fill_cols = Some D.
Proof.
  intros Hd HF.
  destruct (build_dim_rowwise F schema k fill_cols Hd HF)
    as (R & HD & Hkey & _).
  eexists. split; [done|].
  apply ensure_covered; [done| |by left|].
  - cbn [columns]. clear -Hd. unfold DERIVED in Hd.
    repeat (apply elem_of_cons in Hd as [[= -> -> ->]|Hd];
            [by apply (bool_decide_unpack _)|]).
    by apply elem_of_nil in Hd.
  - intros v Hv Hna.
    destruct (key_series_spec F k) as (_ & Hin & _).
    apply list_elem_of_fmap. exists (Str (astype_str v)). split; [done|].
    unfold column_cells. cbn [body]. rewrite <- list_fmap_compose.
    erewrite (list_fmap_ext _ snd); [|intros _ p _; apply Hkey].
    apply Hin. by exists v.
Qed.

(** X13.  The rows the enforcer appends: each default attribute holds its
    constant, or its function applied to the key; every other column of
    the dimension is left null. *)
Theorem enforcer_synthesized_defaults F D k fill_cols :
  count_col k (columns F) = 1 → NoDup (columns D) → k ∈ columns D →
  NoDup fill_cols.*1 → k ∉ fill_cols.*1 →
  ∃ D', ensure_dim_covers_sales_keys F D k fill_cols = Some D' ∧
    ∀ r, r ∈ drop (length (body D)) (body D').*2 →
      (∃ m, at_col r k = Str m) ∧
      (∀ a v, (a, v) ∈ fill_cols → at_col r a = fill_value k r v) ∧
      (∀ c, c ≠ k → c ∉ fill_cols.*1 → at_col r c = NaN).
Proof.
  intros HF HD Hk Hn Hfill.
  destruct (ensure_total float_repr F D k fill_cols HF HD Hk) as [D' HD'].
  exists D'. split; [done|]. intros r.
  rewrite (ensure_rows _ _ _ _ _ _ HD').
  rewrite drop_app_length'; [|by rewrite length_fmap].
  rewrite <- list_fmap_compose.
  intros (m & -> & _)%list_elem_of_fmap. cbn [compose].
  assert (at_col (fill_row k fill_cols {[k := Str m]}) k = Str m) as Hkey
    by (by rewrite fill_row_key, at_col_singleton).
  split_and!.
  - by exists m.
  - intros a v Hin. rewrite (fill_row_attr k fill_cols _ a v) by done.
    symmetry. apply fill_value_key. by rewrite Hkey, at_col_singleton.
  - intros c Hne Hc. rewrite fill_row_spares by done.
    unfold at_col. by rewrite lookup_singleton_ne.
Qed.

(** X14.  The enforcer keeps the key texts of a dimension unique: what it
    appends is new to the dimension and not repeated. *)
Theorem enforcer_keeps_keys_unique F D k fill_cols :
  NoDup (columns D) → k ∈ columns D → k ∉ fill_cols.*1 →
  NoDup (astype_str <$> column_cells D k) →
  ∀ D', ensure_dim_covers_sales_keys F D k fill_cols = Some D' →
        NoDup (astype_str <$> column_cells D' k).
Proof.
  intros HD Hk Hfill Hu D' HD'.
  pose proof (ensure_inv _ _ _ _ _ _ HD') as (HF & _).
  rewrite (ensure_keys _ _ _ _ _ _ Hfill HD'), fmap_app.
  rewrite <- list_fmap_compose.
  rewrite (list_fmap_ext (astype_str ∘ Str) id (missing_of F D k)) by done.
  rewrite list_fmap_id. apply NoDup_app. split_and!; [done| |apply sorted_NoDup].
  intros m Hm Hmiss. by apply missing_spec in Hmiss as [_ Hout].
Qed.

(** X15.  The enforcer raises when the facts have no column of the key
    name, and when a dimension that is not empty has none. *)
Theorem enforcer_needs_key_column F D k fill_cols :
  k ∉ columns F ∨ (is_empty D = false ∧ k ∉ columns D) →
  ensure_dim_covers_sales_keys F D k fill_cols = None.
Proof.
  intros H.
  destruct (ensure_dim_covers_sales_keys F D k fill_cols) as [D'|] eqn:E;
    [exfalso|done].
  apply ensure_inv in E as (HF & HDk & _).
  destruct H as [H|[HE H]]; apply count_col_0 in H; [lia|].
  specialize (HDk HE). lia.
Qed.

End DimensionProperties.

(** ** The calendar and the facts together *)

Lemma elem_of_somes {A : Type} (s : Series (option A)) i a :
  (i, Some a) ∈ s → (i, a) ∈ somes s.
Proof.
  induction s as [|[j [b|]] s IH]; simpl.
  - by intros ?%elem_of_nil.
  - intros [[= -> ->]|Hin]%elem_of_cons; [by left|right; by apply IH].
  - intros [[=]|Hin]%elem_of_cons. by apply IH.
Qed.

Lemma filter_out_self (l : list string) : filter (λ x, x ∉ l) l = [].
Proof.
  apply elem_of_nil_inv. intros x [Hout Hin]%list_elem_of_filter. done.
Qed.

Section TableProperties.

Context (float_repr : Q → string) (to_numeric_str : string → option Q)
  (strptime : string → option Timestamp).
Local Abbreviation astype_str := (astype_str float_repr).
Local Abbreviation parse_date := (parse_date strptime).
Local Abbreviation normalize_customers := (normalize_customers float_repr).
Local Abbreviation normalize_products :=
  (normalize_products float_repr to_numeric_str).
Local Abbreviation normalize_sales :=
  (normalize_sales float_repr to_numeric_str strptime).
Local Abbreviation build_dates_from_sales := (build_dates_from_sales strptime).
Local Abbreviation build_dim_from_sales := (build_dim_from_sales float_repr).
Local Abbreviation ensure_dim_covers_sales_keys :=
  (ensure_dim_covers_sales_keys float_repr).
Local Abbreviation build_tables :=
  (build_tables float_repr to_numeric_str strptime).
Local Abbreviation covered := (covered float_repr).


Lemma normalize_customers_columns df out :
  normalize_customers df = Some out → columns out = CUSTOMER_COLUMNS.
Proof.
  unfold normalize_customers.
  destruct (getitem _ _) as [e|]; [rewrite bind_Some|done].
  destruct (setitem _ _ _) as [df'|]; [rewrite bind_Some|done].
  unfold select. case_decide; [|done]. by intros [= <-].
Qed.

Lemma normalize_products_columns df out :
  normalize_products df = Some out → columns out = PRODUCT_COLUMNS.
Proof.
  unfold normalize_products.
  repeat (match goal with
          | |- getitem ?X ?c ≫= _ = Some _ → _ =>
              destruct (getitem X c) as [?|]; [rewrite bind_Some|done]
          | |- setitem ?c ?s ?X ≫= _ = Some _ → _ =>
              destruct (setitem c s X) as [?|]; [rewrite bind_Some|done]
          end).
  unfold select. case_decide; [|done]. by intros [= <-].
Qed.

(** What a successful first half of [load_dw] went through. *)
Lemma build_tables_inv fs tb :
  build_tables fs = Some tb →
  ∃ c0 p0 s0 k0 m0,
    (∃ raw, normalize_customers raw = Some c0) ∧
    (∃ raw, normalize_products raw = Some p0) ∧
    build_dates_from_sales (sales_df tb) = Some (dates_df tb) ∧
    build_dim_from_sales (sales_df tb) "store_id" "stores" = Some s0 ∧
    build_dim_from_sales (sales_df tb) "campaign_id" "campaigns" = Some k0 ∧
    build_dim_from_sales (sales_df tb) "payment_method_id" "payment_methods"
    = Some m0 ∧
    ensure_dim_covers_sales_keys (sales_df tb) s0 "store_id" STORE_FILL
    = Some (stores_df tb) ∧
    ensure_dim_covers_sales_keys (sales_df tb) m0 "payment_method_id"
      METHOD_FILL = Some (methods_df tb) ∧
    ensure_dim_covers_sales_keys (sales_df tb) k0 "campaign_id" CAMPAIGN_FILL
    = Some (campaigns_df tb) ∧
    ensure_dim_covers_sales_keys (sales_df tb) c0 "customer_id" CUSTOMER_FILL
    = Some (customers_df tb) ∧
    ensure_dim_covers_sales_keys (sales_df tb) p0 "product_id" PRODUCT_FILL
    = Some (products_df tb).
Proof.
  unfold build_tables, _read_clean. intros H.
  repeat match type of H with
         | ?m ≫= _ = Some _ =>
             let E := fresh "E" in
             destruct m eqn:E; [rewrite bind_Some in H|discriminate H]
         end.
  injection H as <-. cbn [sales_df dates_df customers_df products_df stores_df
                            campaigns_df methods_df].
  eexists _, _, _, _, _. split_and!; try eassumption; by eexists.
Qed.

(** The header of a dimension that has its schema is kept by the
    enforcer. *)
Lemma ensure_schema F D k fill_cols D' :
  columns D = k :: fill_cols.*1 → NoDup (k :: fill_cols.*1) →
  ensure_dim_covers_sales_keys F D k fill_cols = Some D' →
  columns D' = k :: fill_cols.*1.
Proof.
  intros Hc Hn (_ & _ & [[_ ->]|[_ Hcat]])%ensure_inv; [done|].
  apply NoDup_cons in Hn as [Hk Hn].
  apply concat_Some in Hcat as [-> _]. cbn [columns].
  rewrite fill_header_fresh by done. rewrite Hc.
  by rewrite filter_out_self, app_nil_r.
Qed.

(** X17.  Whenever the first half of [load_dw] goes through, the tables
    it hands to the warehouse are referentially closed by text: for each
    of the five keys, the text of every non-null fact key is the text of a
    key of its dimension. *)
Theorem built_tables_are_closed fs tb :
  build_tables fs = Some tb →
  covered (sales_df tb) (customers_df tb) "customer_id" ∧
  covered (sales_df tb) (products_df tb) "product_id" ∧
  covered (sales_df tb) (stores_df tb) "store_id" ∧
  covered (sales_df tb) (campaigns_df tb) "campaign_id" ∧
  covered (sales_df tb) (methods_df tb) "payment_method_id".
Proof.
  intros (c0 & p0 & s0 & k0 & m0 & [? Hc0] & [? Hp0] & _ & Hs0 & Hk0 & Hm0
          & Hs & Hm & Hk & Hc & Hp)%build_tables_inv.
  apply normalize_customers_columns in Hc0.
  apply normalize_products_columns in Hp0.
  assert (∀ schema k fill_cols D D',
            (schema, k, fill_cols) ∈ DERIVED →
            build_dim_from_sales (sales_df tb) k schema = Some D →
            ensure_dim_covers_sales_keys (sales_df tb) D k fill_cols = Some D' →
            NoDup (k :: fill_cols.*1) →
            covered (sales_df tb) D' k) as Hderived.
  { intros schema k fill_cols D D' Hd HD HD' Hn.
    pose proof (ensure_inv _ _ _ _ _ _ HD') as (HF & _).
    destruct (build_dim_rowwise float_repr _ _ _ _ Hd HF) as (R & HR & _).
    rewrite HR in HD. injection HD as <-.
    apply (ensure_covers float_repr _ _ _ _ _) in HD'; [done|done|by left|].
    by apply NoDup_cons in Hn as [? _]. }
  split_and!.
  - apply (ensure_covers float_repr _ _ _ _ _) in Hc; [done|..];
      rewrite ?Hc0; by apply (bool_decide_unpack _).
  - apply (ensure_covers float_repr _ _ _ _ _) in Hp; [done|..];
      rewrite ?Hp0; by apply (bool_decide_unpack _).
  - eapply (Hderived "stores"); [by left|done..|by apply (bool_decide_unpack _)].
  - eapply (Hderived "campaigns");
      [right; by left|done..|by apply (bool_decide_unpack _)].
  - eapply (Hderived "payment_methods");
      [right; right; by left|done..|by apply (bool_decide_unpack _)].
Qed.

(** X18.  Whenever the first half of [load_dw] goes through, each of the
    six dimension tables has exactly the columns the DDL declares for
    it, in the declared order. *)
Theorem built_dimensions_have_the_schema fs tb :
  build_tables fs = Some tb →
  ∀ t df, (t, df) ∈ load_order tb → t ≠ "sales" →
          assoc t DDL_COLUMNS = Some (columns df).
Proof.
  intros (c0 & p0 & s0 & k0 & m0 & [? Hc0] & [? Hp0] & Hd & Hs0 & Hk0 & Hm0
          & Hs & Hm & Hk & Hc & Hp)%build_tables_inv.
  apply normalize_customers_columns in Hc0.
  apply normalize_products_columns in Hp0.
  assert (∀ schema k fill_cols D D',
            (schema, k, fill_cols) ∈ DERIVED →
            build_dim_from_sales (sales_df tb) k schema = Some D →
            ensure_dim_covers_sales_keys (sales_df tb) D k fill_cols = Some D' →
            NoDup (k :: fill_cols.*1) →
            columns D' = k :: fill_cols.*1) as Hderived.
  { intros schema k fill_cols D D' Hin HD HD' Hn.
    pose proof (ensure_inv _ _ _ _ _ _ HD') as (HF & _).
    destruct (build_dim_rowwise float_repr _ _ _ _ Hin HF) as (R & HR & _).
    rewrite HR in HD. injection HD as <-.
    eapply ensure_schema; [|exact Hn|exact HD']. done. }
  assert (columns (dates_df tb) = CALENDAR.*1) as Hdates.
  { assert (count_col "date" (columns (sales_df tb)) = 1) as E.
    { destruct (getitem (sales_df tb) "date") as [d|] eqn:E.
      - by apply getitem_Some in E as [E _].
      - unfold build_dates_from_sales in Hd. by rewrite E in Hd. }
    rewrite (build_dates_rows strptime _ E) in Hd. by injection Hd as <-. }
  apply (ensure_schema _ c0 "customer_id" CUSTOMER_FILL _ Hc0) in Hc;
    [|by apply (bool_decide_unpack _)].
  apply (ensure_schema _ p0 "product_id" PRODUCT_FILL _ Hp0) in Hp;
    [|by apply (bool_decide_unpack _)].
  apply (Hderived "stores") in Hs;
    [|by left|done|by apply (bool_decide_unpack _)].
  apply (Hderived "campaigns") in Hk;
    [|right; by left|done|by apply (bool_decide_unpack _)].
  apply (Hderived "payment_methods") in Hm;
    [|right; right; by left|done|by apply (bool_decide_unpack _)].
  intros t df Hin Hne. unfold load_order in Hin.
  repeat (apply elem_of_cons in Hin as [[= -> ->]|Hin];
          [first [done | by rewrite Hdates | by rewrite Hc | by rewrite Hp
                 | by rewrite Hs | by rewrite Hk | by rewrite Hm]|]).
  by apply elem_of_nil in Hin.
Qed.

End TableProperties.

(** ** The warehouse after a run *)

Section RunProperties.

Context (float_repr : Q → string) (to_numeric_str : string → option Q)
  (strptime : string → option Timestamp)
  (accepts : string → store → row → bool).
Local Abbreviation insert_rows := (insert_rows accepts).
Local Abbreviation insert_all := (insert_all accepts).
Local Abbreviation write_tables := (write_tables accepts).
Local Abbreviation build_tables :=
  (build_tables float_repr to_numeric_str strptime).
Local Abbreviation load_dw :=
  (load_dw float_repr to_numeric_str strptime accepts).

Lemma insert_rows_lookup t rows (w w' : store) :
  insert_rows t rows w = Some w' →
  (∀ t', t' ≠ t → w' !! t' = w !! t') ∧
  (∀ x, w !! t = Some x → w' !! t = Some (x ++ rows)).
Proof.
  revert w. induction rows as [|r rows IH]; intros w; simpl.
  - intros [= ->]. split; [done|]. intros x ->. by rewrite app_nil_r.
  - destruct (accepts t w r); [|done]. intros [H1 H2]%IH. split.
    + intros t' Hne. rewrite H1 by done. by rewrite lookup_insert_ne.
    + intros x Hx. rewrite (H2 (x ++ [r])).
      * by rewrite <- app_assoc.
      * rewrite lookup_insert_eq. by rewrite (lookup_total_correct _ _ _ Hx).
Qed.

(** The insertions, when all go through. *)
Lemma insert_all_lookup steps (c w w' : store) :
  NoDup steps.*1 → insert_all steps c w = (true, w') →
  (∀ t df, (t, df) ∈ steps → ∀ x, w !! t = Some x →
           w' !! t = Some (x ++ (body df).*2)) ∧
  (∀ t, t ∉ steps.*1 → w' !! t = w !! t).
Proof.
  revert c w. induction steps as [|[t df] rest IH]; intros c w Hn; simpl.
  - intros [= ->]. split; [by intros ? ? ?%elem_of_nil|done].
  - simpl in Hn. apply NoDup_cons in Hn as [Ht Hn].
    destruct (insert_rows t (body df).*2 w) as [w1|] eqn:E; [|done].
    apply insert_rows_lookup in E as [E1 E2].
    intros [H1 H2]%(IH _ _ Hn). split.
    + intros t2 df2 [[= -> ->]|Hin]%elem_of_cons x Hx.
      * rewrite (H2 _ Ht). by apply E2.
      * apply (H1 _ _ Hin). rewrite E1; [done|]. intros ->. apply Ht.
        apply list_elem_of_fmap. by exists (t, df2).
    + intros t2 [Hne Hout]%not_elem_of_cons. rewrite (H2 _ Hout).
      by apply E1.
Qed.

(** The insertions, when one is refused: the store of the last commit. *)
Lemma insert_all_refused steps (c w d : store) :
  NoDup steps.*1 → insert_all steps c w = (false, d) →
  ∃ n, n < length steps ∧ (n = 0 → d = c) ∧
    (0 < n →
     (∀ i t df, steps !! i = Some (t, df) → ∀ x, w !! t = Some x →
        d !! t = Some (if decide (i < n) then x ++ (body df).*2 else x)) ∧
     (∀ t, t ∉ steps.*1 → d !! t = w !! t)).
Proof.
  revert c w. induction steps as [|[t df] rest IH]; intros c w Hn; simpl.
  - done.
  - simpl in Hn. apply NoDup_cons in Hn as [Ht Hn].
    destruct (insert_rows t (body df).*2 w) as [w1|] eqn:E.
    2:{ intros [= <-]. exists 0. split; [lia|]. split; [done|lia]. }
    apply insert_rows_lookup in E as [E1 E2].
    intros (n & Hlt & H0 & Hpos)%(IH _ _ Hn).
    exists (S n). split; [lia|]. split; [lia|]. intros _.
    assert (∀ t2 df2, (t2, df2) ∈ rest → t2 ≠ t) as Hrest.
    { intros t2 df2 Hin ->. apply Ht. apply list_elem_of_fmap.
      by exists (t, df2). }
    destruct (decide (n = 0)) as [->|Hn0].
    + rewrite (H0 eq_refl). split.
      * intros [|i] t2 df2 Hi x Hx; simpl in Hi.
        -- injection Hi as -> ->. rewrite decide_True by lia. by apply E2.
        -- rewrite decide_False by lia. rewrite E1; [done|].
           apply (Hrest _ df2). by apply list_elem_of_lookup_2 in Hi.
      * intros t2 [Hne _]%not_elem_of_cons. by apply E1.
    + destruct Hpos as [H1 H2]; [lia|]. split.
      * intros [|i] t2 df2 Hi x Hx; simpl in Hi.
        -- injection Hi as -> ->. rewrite decide_True by lia.
           rewrite (H2 _ Ht). by apply E2.
        -- assert (t2 ≠ t) as Hne.
           { apply (Hrest _ df2). by apply list_elem_of_lookup_2 in Hi. }
           rewrite (H1 i t2 df2 Hi x) by (by rewrite E1).
           destruct (decide (i < n)), (decide (S i < S n)); done || lia.
      * intros t2 [Hne Hout]%not_elem_of_cons. rewrite (H2 _ Hout).
        by apply E1.
Qed.

Lemma load_order_tables tb : (load_order tb).*1 = TABLES.
Proof. done. Qed.

Lemma lookup_emptied (s : store) t :
  t ∈ TABLES → wiped (create_tables s) !! t = Some [].
Proof. intros Ht. rewrite lookup_wiped. by rewrite decide_True. Qed.

Lemma lookup_untouched (s : store) t :
  t ∉ TABLES → wiped (create_tables s) !! t = s !! t.
Proof.
  intros Ht. rewrite lookup_wiped, decide_False by done.
  by rewrite lookup_create_tables, decide_False.
Qed.

(** X19.  A run of [load_dw] that returns leaves in each of the seven
    tables exactly the rows of the table built for it, in order, whatever
    the table held before; the counts it reports are the numbers of rows
    of those tables. *)
Theorem load_dw_fills_the_tables fs (s s' : store) counts :
  load_dw fs s = (Some counts, s') →
  ∃ tb, build_tables fs = Some tb ∧
    (∀ t df, (t, df) ∈ load_order tb → s' !! t = Some (body df).*2) ∧
    counts = (λ p, (p.1, length (body p.2))) <$> load_order tb.
Proof.
  unfold load_dw. destruct (build_tables fs) as [tb|]; [|done].
  rewrite write_tables_run. cbv zeta.
  destruct (insert_all _ _ _) as [[] w'] eqn:E; [|done].
  cbn [fst snd]. intros [= <- <-]. exists tb. split; [done|].
  apply insert_all_lookup in E as [H1 _];
    [|rewrite load_order_tables; by apply (bool_decide_unpack _)].
  assert (∀ t df, (t, df) ∈ load_order tb → w' !! t = Some (body df).*2) as Hrows.
  { intros t df Hin. apply (H1 _ _ Hin []). apply lookup_emptied.
    rewrite <- (load_order_tables tb). apply list_elem_of_fmap.
    by exists (t, df). }
  split; [done|].
  unfold row_counts. rewrite <- (load_order_tables tb).
  rewrite <- list_fmap_compose. apply list_fmap_ext.
  intros i [t df] Hi%list_elem_of_lookup_2. cbn [compose fst snd].
  rewrite (lookup_total_correct _ _ _ (Hrows _ _ Hi)). by rewrite length_fmap.
Qed.


(** X21.  When one of the three cleaned files is missing, [load_dw]
    raises before it opens the warehouse: no table is created, emptied or
    written. *)
Theorem load_dw_missing_file fs (s : store) f :
  f ∈ CLEAN_FILES → fs f = None → load_dw fs s = (None, s).
Proof.
  intros Hf Hnone. unfold load_dw.
  assert (build_tables fs = None) as ->; [|done].
  unfold build_tables, _read_clean. unfold CLEAN_FILES in Hf.
  apply elem_of_cons in Hf as [->|Hf]; [rewrite Hnone; reflexivity|].
  destruct (fs "customers_data_clean.csv"); [rewrite bind_Some|done].
  apply elem_of_cons in Hf as [->|Hf]; [rewrite Hnone; reflexivity|].
  destruct (fs "products_data_clean.csv"); [rewrite bind_Some|done].
  apply elem_of_cons in Hf as [->|Hf]; [rewrite Hnone; reflexivity|].
  by apply elem_of_nil in Hf.
Qed.


End RunProperties.

(** ** Numbers *)

Section NumberProperties.

Context (to_numeric_str : string → option Q).
Local Abbreviation to_numeric := (to_numeric to_numeric_str).
Local Abbreviation _num := (_num to_numeric_str).

Lemma astype_int_int64 (q : Q) : int64 (astype_int q).
Proof.
  unfold astype_int, int64. case_bool_decide; [done|]. by vm_compute.
Qed.

Lemma astype_int_again (q : Q) :
  astype_int (inject_Z (astype_int q)) = astype_int q.
Proof.
  pose proof (astype_int_int64 q) as Hr. unfold int64 in Hr.
  unfold astype_int at 1. cbn [Qnum Qden inject_Z]. rewrite Z.quot_1_r.
  by rewrite bool_decide_eq_true_2.
Qed.


End NumberProperties.

(** ** An empty dimension *)

Section EmptyDimension.

Context (float_repr : Q → string).
Local Abbreviation astype_str := (astype_str float_repr).
Local Abbreviation ensure_dim_covers_sales_keys :=
  (ensure_dim_covers_sales_keys float_repr).
Local Abbreviation missing_of := (missing_of float_repr).

(** X24.  Given a dimension without rows, the enforcer does not read its
    key column: it returns one row per distinct text of a non-null fact
    key, in ascending order of that text. *)
Theorem enforcer_fills_an_empty_dimension F D k fill_cols :
  count_col k (columns F) = 1 → body D = [] → NoDup (columns D) →
  k ∉ fill_cols.*1 →
  ∃ D' ms,
    ensure_dim_covers_sales_keys F D k fill_cols = Some D' ∧
    column_cells D' k = Str <$> ms ∧
    StronglySorted str_le ms ∧ NoDup ms ∧
    ∀ m, m ∈ ms ↔
         ∃ v, v ∈ column_cells F k ∧ isna v = false ∧ astype_str v = m.
Proof.
  intros HF Hb HD Hfill.
  assert (is_empty D = true) as HE.
  { unfold is_empty. by rewrite Hb, bool_decide_eq_true_2. }
  assert (is_Some (ensure_dim_covers_sales_keys F D k fill_cols)) as [D' HD'].
  { unfold ensure_dim_covers_sales_keys.
    rewrite (getitem_is_Some F k HF), HE. simpl.
    case_decide; [done|].
    rewrite fill_columns_spec by apply count_col_singleton. simpl.
    apply concat_NoDup; [done|]. simpl.
    apply fill_header_NoDup, NoDup_singleton. }
  exists D', (missing_of F D k). split; [done|].
  split_and!.
  - rewrite (ensure_keys _ _ _ _ _ _ Hfill HD').
    unfold column_cells at 1. by rewrite Hb.
  - apply sorted_ascending.
  - apply sorted_NoDup.
  - intros m. unfold missing_of.
    rewrite (getitem_is_Some F k HF), HE. simpl.
    rewrite elem_of_sorted, elem_of_difference, elem_of_str_set, values_dropna.
    rewrite values_column, list_elem_of_fmap.
    setoid_rewrite list_elem_of_filter. set_solver.
Qed.

End EmptyDimension.

(** ** Further runs, and the types of a fact row *)

Section EdgeProperties.

Context (float_repr : Q → string) (to_numeric_str : string → option Q)
  (strptime : string → option Timestamp)
  (accepts : string → store → row → bool).
Local Abbreviation astype_str := (astype_str float_repr).
Local Abbreviation to_numeric := (to_numeric to_numeric_str).
Local Abbreviation parse_date := (parse_date strptime).
Local Abbreviation normalize_sales :=
  (normalize_sales float_repr to_numeric_str strptime).
Local Abbreviation fact_row := (fact_row float_repr to_numeric_str strptime).
Local Abbreviation load_dw :=
  (load_dw float_repr to_numeric_str strptime accepts).

(** X25.  After one run of [load_dw], any number of further runs on the
    same files leave the store as the first run left it, and each of them
    ends as the first did: with the same counts, or raising. *)
Theorem reruns_change_nothing fs (s : store) (n : nat) :
  Nat.iter n (λ st, (load_dw fs st).2) (load_dw fs s).2 = (load_dw fs s).2 ∧
  load_dw fs (Nat.iter n (λ st, (load_dw fs st).2) (load_dw fs s).2)
  = load_dw fs s.
Proof.
  assert (∀ st, load_dw fs (load_dw fs st).2 = load_dw fs st) as Hagain.
  { intros st. unfold load_dw.
    destruct (build_tables _ _ _ fs) as [tb|]; [|done].
    apply write_tables_again. }
  assert (Nat.iter n (λ st, (load_dw fs st).2) (load_dw fs s).2
          = (load_dw fs s).2) as Hfix.
  { induction n as [|n IH]; [done|].
    rewrite Nat.iter_succ, IH. by rewrite Hagain. }
  split; [done|]. by rewrite Hfix, Hagain.
Qed.


End EdgeProperties.

(** ** The properties on sample tables *)

Lemma closure_by_text_witness :
  ∃ D', ensure_dim_covers_sales_keys fixed_repr named_facts named_customers
          "customer_id" CUSTOMER_FILL = Some D' ∧
    (∀ v, v ∈ column_cells named_facts "customer_id" → isna v = false →
          astype_str fixed_repr v
            ∈ astype_str fixed_repr <$> column_cells D' "customer_id") ∧
    (Forall (λ c, is_str c = true) (column_cells named_customers "customer_id") →
     ∀ s, Str s ∈ column_cells named_facts "customer_id" →
          Str s ∈ column_cells D' "customer_id").
Proof.
  apply (closure_by_text fixed_repr named_facts named_customers "customer_id"
           CUSTOMER_FILL).
  - vm_compute. reflexivity.
  - apply (bool_decide_unpack _). vm_compute. exact I.
  - apply (bool_decide_unpack _). vm_compute. exact I.
  - apply (bool_decide_unpack _). vm_compute. exact I.
Defined.

(** C1 as stated fails on keys that are numbers: the fact key [1002] is
    covered by a synthesized row whose key is the string ["1002"]. *)
Lemma closure_fails_on_numbers :
  ∃ D', ensure_dim_covers_sales_keys fixed_repr numbered_facts
          numbered_customers "customer_id" CUSTOMER_FILL = Some D' ∧
        Int 1002 ∈ column_cells numbered_facts "customer_id" ∧
        isna (Int 1002) = false ∧
        Int 1002 ∉ column_cells D' "customer_id".
Proof.
  eexists. split; [vm_compute; reflexivity|].
  split_and!; [|done|]; apply (bool_decide_unpack _); vm_compute; exact I.
Qed.

Lemma enforcer_idempotent_witness :
  ∃ D1, ensure_dim_covers_sales_keys fixed_repr named_facts named_customers
          "customer_id" CUSTOMER_FILL = Some D1 ∧
        ensure_dim_covers_sales_keys fixed_repr named_facts D1
          "customer_id" CUSTOMER_FILL = Some D1.
Proof.
  apply (enforcer_idempotent fixed_repr named_facts named_customers
           "customer_id" CUSTOMER_FILL).
  - vm_compute. reflexivity.
  - apply (bool_decide_unpack _). vm_compute. exact I.
  - apply (bool_decide_unpack _). vm_compute. exact I.
  - apply (bool_decide_unpack _). vm_compute. exact I.
Defined.

(** C2 as stated fails for default attributes that name the key column: the
    synthesized key is overwritten, so the second application synthesizes
    the same row again. *)
Lemma enforcer_not_idempotent :
  ∃ D1 D2,
    ensure_dim_covers_sales_keys fixed_repr one_store_facts no_stores
      "store_id" KEY_NAMING_FILL = Some D1 ∧
    ensure_dim_covers_sales_keys fixed_repr one_store_facts D1
      "store_id" KEY_NAMING_FILL = Some D2 ∧
    len D1 = 1 ∧ len D2 = 2.
Proof.
  do 2 eexists. split; [vm_compute; reflexivity|].
  split; [vm_compute; reflexivity|]. split; vm_compute; reflexivity.
Qed.

Lemma enforcer_append_only_witness :
  ∃ D' added ms,
    ensure_dim_covers_sales_keys fixed_repr named_facts named_customers
      "customer_id" CUSTOMER_FILL = Some D' ∧
    (body D').*2 = (body named_customers).*2 ++ added ∧
    (λ r, at_col r "customer_id") <$> added = Str <$> ms ∧
    StronglySorted str_le ms ∧ NoDup ms ∧
    ∀ m, m ∈ ms →
      (∃ v, v ∈ column_cells named_facts "customer_id" ∧ isna v = false
            ∧ astype_str fixed_repr v = m) ∧
      m ∉ astype_str fixed_repr <$> column_cells named_customers "customer_id".
Proof.
  apply (enforcer_append_only fixed_repr named_facts named_customers
           "customer_id" CUSTOMER_FILL).
  - vm_compute. reflexivity.
  - apply (bool_decide_unpack _). vm_compute. exact I.
  - apply (bool_decide_unpack _). vm_compute. exact I.
  - apply (bool_decide_unpack _). vm_compute. exact I.
Defined.

(** C10 as stated fails for default attributes that name the key column:
    the appended row carries the default, which is no key of the facts. *)
Lemma appended_key_not_from_facts :
  ∃ D', ensure_dim_covers_sales_keys fixed_repr one_store_facts no_stores
          "store_id" KEY_NAMING_FILL = Some D' ∧
        column_cells D' "store_id" = [Str "UNKNOWN-STORE"] ∧
        column_cells one_store_facts "store_id" = [Str "S1"].
Proof.
  eexists. split; [vm_compute; reflexivity|]. split; vm_compute; reflexivity.
Qed.

Example closure_on_names :
  (λ D', column_cells D' "customer_id")
    <$> ensure_dim_covers_sales_keys fixed_repr named_facts named_customers
          "customer_id" CUSTOMER_FILL
  = Some [Str "C1"; Str "C2"; Str "C3"].
Proof. vm_compute. reflexivity. Qed.

Lemma sample_sales_ready : sales_ready sample_sales.
Proof. split_and!; apply (bool_decide_unpack _); by vm_compute. Qed.

Example sample_facts :
  (λ out, (index (body out), column_cells out "date",
           column_cells out "quantity", column_cells out "store_id",
           column_cells out "payment_method_id", column_cells out "campaign_id"))
    <$> normalize_sales fixed_repr decimal_literal iso_date sample_sales
  = Some ([0; 2; 3],
          [Str "2024-03-09"; Str "2024-03-08"; Str "2024-03-09"],
          [Int 0; Int (-3); Int 0],
          [Str "nan"; Str "UNKNOWN-STORE"; Str "S1"],
          [Str "VISA"; Str "nan"; Str "Visa"],
          [PyNone; Str "K1"; PyNone]).
Proof. by vm_compute. Qed.




(** C7 on the sample: a missing [StoreID] or [PaymentMethod] comes out as
    the text ["nan"], not as the sentinel; only the empty string is replaced. *)
Lemma missing_store_and_method_read_nan :
  ∃ out,
    normalize_sales fixed_repr decimal_literal iso_date sample_sales = Some out ∧
    column_cells sample_sales "StoreID" = [NaN; Str "S1"; Str EmptyString; Str "S1"] ∧
    column_cells out "store_id" = [Str "nan"; Str "UNKNOWN-STORE"; Str "S1"] ∧
    column_cells sample_sales "PaymentMethod"
    = [Str "VISA"; Str "Cash"; NaN; Str "Visa"] ∧
    column_cells out "payment_method_id" = [Str "VISA"; Str "nan"; Str "Visa"].
Proof.
  eexists. split; [by vm_compute|]. split_and!; by vm_compute.
Qed.

Lemma payment_method_passes_through_witness :
  sales_ready sample_sales ∧
  ∃ out,
    normalize_sales fixed_repr decimal_literal iso_date sample_sales = Some out ∧
    ∀ i r, (i, r) ∈ body sample_sales →
      is_Some (parse_date iso_date (at_col r "SaleDate")) →
      ∃ r', (i, r') ∈ body out ∧
        r' !! "payment_method_id" =
          Some (if decide (astype_str fixed_repr (at_col r "PaymentMethod")
                           = EmptyString)
                then Str "UNKNOWN"
                else Str (astype_str fixed_repr (at_col r "PaymentMethod"))) ∧
        ∀ pm, at_col r "PaymentMethod" = Str (normalize_payment fixed_repr pm) →
              r' !! "payment_method_id"
              = Some (Str (normalize_payment fixed_repr pm)).
Proof.
  split; [exact sample_sales_ready|].
  apply (payment_method_passes_through fixed_repr decimal_literal iso_date
           sample_sales).
  split_and!; apply (bool_decide_unpack _); by vm_compute.
Defined.

(** C8 as stated fails on ["VISA"]: the fact row keeps ["VISA"], while the
    canonical token is ["Visa"]. *)
Lemma visa_is_not_canonicalized :
  ∃ out,
    normalize_sales fixed_repr decimal_literal iso_date sample_sales = Some out ∧
    column_cells sample_sales "PaymentMethod"
    = [Str "VISA"; Str "Cash"; NaN; Str "Visa"] ∧
    column_cells out "payment_method_id" = [Str "VISA"; Str "nan"; Str "Visa"] ∧
    normalize_payment fixed_repr (Str "VISA") = "Visa".
Proof.
  eexists. split; [by vm_compute|]. split_and!; by vm_compute.
Qed.

Example sample_calendar :
  (λ out, (column_cells out "date", column_cells out "is_weekend",
           column_cells out "quarter"))
    <$> build_dates_from_sales iso_date dated_facts
  = Some ([Str "2023-12-31"; Str "2024-03-04"; Str "2024-03-09"],
          [Int 1; Int 0; Int 1], [Int 4; Int 1; Int 1]).
Proof. by vm_compute. Qed.


Example sample_run_counts :
  (load_dw fixed_repr decimal_literal iso_date primary_key_accepts
     (clean_dir sample_sales) earlier_warehouse).1
  = Some [("dates", 2); ("customers", 2); ("products", 2); ("stores", 3);
          ("campaigns", 1); ("payment_methods", 3); ("sales", 3)].
Proof. by vm_compute. Qed.

(** C5 on the sample: the sales file repeats a transaction identifier, the
    insertion into [sales] is refused and [load_dw] raises; the store left on
    disk is neither the earlier warehouse nor a full load: every table was
    emptied, the dimensions were reloaded, and [sales] is empty. *)
Lemma failed_load_is_half_committed :
  (load_dw fixed_repr decimal_literal iso_date primary_key_accepts
     (clean_dir repeated_sales) earlier_warehouse).1 = None ∧
  row_counts earlier_warehouse
  = [("dates", 1); ("customers", 1); ("products", 1); ("stores", 1);
     ("campaigns", 1); ("payment_methods", 1); ("sales", 1)] ∧
  row_counts
    (load_dw fixed_repr decimal_literal iso_date primary_key_accepts
       (clean_dir repeated_sales) earlier_warehouse).2
  = [("dates", 2); ("customers", 2); ("products", 1); ("stores", 2);
     ("campaigns", 0); ("payment_methods", 2); ("sales", 0)].
Proof. split_and!; by vm_compute. Qed.

Example second_run_reports_the_same :
  (load_dw fixed_repr decimal_literal iso_date primary_key_accepts
     (clean_dir sample_sales)
     (load_dw fixed_repr decimal_literal iso_date primary_key_accepts
        (clean_dir sample_sales) earlier_warehouse).2).1
  = Some [("dates", 2); ("customers", 2); ("products", 2); ("stores", 3);
          ("campaigns", 1); ("payment_methods", 3); ("sales", 3)].
Proof. by vm_compute. Qed.

(** ** The normalizers on the sample files *)

Lemma sample_customers_header : has_header CUSTOMERS_RENAME sample_customers.
Proof. split; apply (bool_decide_unpack _); by vm_compute. Qed.

Lemma sample_products_header : has_header PRODUCTS_RENAME sample_products.
Proof. split; apply (bool_decide_unpack _); by vm_compute. Qed.

Lemma normalize_customers_rows_witness :
  has_header CUSTOMERS_RENAME sample_customers ∧
  ∃ out, normalize_customers fixed_repr sample_customers = Some out ∧
    columns out = CUSTOMER_COLUMNS ∧
    Forall2 (λ p p',
               p'.1 = p.1 ∧
               at_col p'.2 "customer_id" = at_col p.2 "CustomerID" ∧
               at_col p'.2 "name" = at_col p.2 "Name" ∧
               at_col p'.2 "region" = at_col p.2 "Region" ∧
               at_col p'.2 "join_date" = at_col p.2 "JoinDate" ∧
               at_col p'.2 "last_purchase_date" = at_col p.2 "LastPurchaseDate" ∧
               at_col p'.2 "email_opt_in"
               = Int (yn_flag fixed_repr (at_col p.2 "EmailOptIn")) ∧
               (yn_flag fixed_repr (at_col p.2 "EmailOptIn") = 0%Z
                ∨ yn_flag fixed_repr (at_col p.2 "EmailOptIn") = 1%Z))
      (body sample_customers) (body out).
Proof.
  split; [exact sample_customers_header|].
  apply (normalize_customers_rows fixed_repr sample_customers).
  exact sample_customers_header.
Defined.


Lemma normalize_customers_missing_column_witness :
  "EmailOptIn" ∉ columns customers_without_opt_in ∧
  normalize_customers fixed_repr customers_without_opt_in = None.
Proof.
  split; [by apply (bool_decide_unpack _)|].
  apply (normalize_customers_missing_column fixed_repr customers_without_opt_in
           "EmailOptIn" "email_opt_in");
    by apply (bool_decide_unpack _).
Defined.

Lemma normalize_products_missing_column_witness :
  "Category" ∉ columns products_without_category ∧
  normalize_products fixed_repr decimal_literal products_without_category = None.
Proof.
  split; [by apply (bool_decide_unpack _)|].
  apply (normalize_products_missing_column fixed_repr decimal_literal
           products_without_category "Category" "category");
    by apply (bool_decide_unpack _).
Defined.

Lemma normalize_sales_missing_column_witness :
  "StoreID" ∉ columns sales_without_store ∧
  normalize_sales fixed_repr decimal_literal iso_date sales_without_store = None.
Proof.
  split; [by apply (bool_decide_unpack _)|].
  apply (normalize_sales_missing_column fixed_repr decimal_literal iso_date
           sales_without_store "StoreID" "store_id");
    by apply (bool_decide_unpack _).
Defined.



(** ** Derived dimensions and the enforcer on the sample tables *)

Lemma derived_dimension_rows_witness :
  count_col "store_id" (columns one_store_facts) = 1 ∧
  ∃ D, build_dim_from_sales fixed_repr one_store_facts "store_id" "stores"
       = Some D ∧
    columns D = "store_id" :: STORE_FILL.*1 ∧
    NoDup (column_cells D "store_id") ∧
    (∀ c, c ∈ column_cells D "store_id" ↔
          ∃ v, v ∈ column_cells one_store_facts "store_id" ∧ isna v = false ∧
               c = Str (astype_str fixed_repr v)) ∧
    ∀ i r, (i, r) ∈ body D →
      (∃ r0, (i, r0) ∈ body one_store_facts ∧
             isna (at_col r0 "store_id") = false ∧
             at_col r "store_id"
             = Str (astype_str fixed_repr (at_col r0 "store_id"))) ∧
      ∀ a v, (a, v) ∈ STORE_FILL → at_col r a = fill_value "store_id" r v.
Proof.
  split; [by vm_compute|].
  apply (derived_dimension_rows fixed_repr one_store_facts "stores" "store_id"
           STORE_FILL).
  - by left.
  - by vm_compute.
Defined.

Lemma enforcer_noop_iff_covered_witness :
  count_col "customer_id" (columns named_facts) = 1 ∧
  (ensure_dim_covers_sales_keys fixed_repr named_facts named_customers
     "customer_id" CUSTOMER_FILL = Some named_customers
   ↔ covered fixed_repr named_facts named_customers "customer_id").
Proof.
  split; [by vm_compute|].
  apply (enforcer_noop_iff_covered fixed_repr named_facts named_customers
           "customer_id" CUSTOMER_FILL).
  - by vm_compute.
  - by apply (bool_decide_unpack _).
  - by apply (bool_decide_unpack _).
Defined.

Lemma derived_dimension_is_closed_witness :
  count_col "store_id" (columns one_store_facts) = 1 ∧
  ∃ D, build_dim_from_sales fixed_repr one_store_facts "store_id" "stores"
       = Some D ∧
       ensure_dim_covers_sales_keys fixed_repr one_store_facts D "store_id"
         STORE_FILL = Some D.
Proof.
  split; [by vm_compute|].
  apply (derived_dimension_is_closed fixed_repr one_store_facts "stores"
           "store_id" STORE_FILL).
  - by left.
  - by vm_compute.
Defined.

Lemma enforcer_synthesized_defaults_witness :
  count_col "customer_id" (columns named_facts) = 1 ∧
  ∃ D', ensure_dim_covers_sales_keys fixed_repr named_facts named_customers
          "customer_id" CUSTOMER_FILL = Some D' ∧
    ∀ r, r ∈ drop (length (body named_customers)) (body D').*2 →
      (∃ m, at_col r "customer_id" = Str m) ∧
      (∀ a v, (a, v) ∈ CUSTOMER_FILL →
              at_col r a = fill_value "customer_id" r v) ∧
      (∀ c, c ≠ "customer_id" → c ∉ CUSTOMER_FILL.*1 → at_col r c = NaN).
Proof.
  split; [by vm_compute|].
  apply (enforcer_synthesized_defaults fixed_repr named_facts named_customers
           "customer_id" CUSTOMER_FILL).
  - by vm_compute.
  - by apply (bool_decide_unpack _).
  - by apply (bool_decide_unpack _).
  - by apply (bool_decide_unpack _).
  - by apply (bool_decide_unpack _).
Defined.

Lemma enforcer_keeps_keys_unique_witness :
  NoDup (astype_str fixed_repr <$> column_cells named_customers "customer_id") ∧
  ∀ D', ensure_dim_covers_sales_keys fixed_repr named_facts named_customers
          "customer_id" CUSTOMER_FILL = Some D' →
        NoDup (astype_str fixed_repr <$> column_cells D' "customer_id").
Proof.
  split; [by apply (bool_decide_unpack _)|].
  apply (enforcer_keeps_keys_unique fixed_repr named_facts named_customers
           "customer_id" CUSTOMER_FILL);
    by apply (bool_decide_unpack _).
Defined.

Lemma enforcer_needs_key_column_witness :
  "customer_id" ∉ columns one_store_facts ∧
  ensure_dim_covers_sales_keys fixed_repr one_store_facts named_customers
    "customer_id" CUSTOMER_FILL = None.
Proof.
  split; [by apply (bool_decide_unpack _)|].
  apply (enforcer_needs_key_column fixed_repr one_store_facts named_customers
           "customer_id" CUSTOMER_FILL).
  left. by apply (bool_decide_unpack _).
Defined.

(** ** The load on the sample files *)


Lemma sample_tables_built :
  is_Some (build_tables fixed_repr decimal_literal iso_date
             (clean_dir sample_sales)).
Proof. apply (bool_decide_unpack _). vm_compute. exact I. Qed.

Lemma repeated_tables_built :
  is_Some (build_tables fixed_repr decimal_literal iso_date
             (clean_dir repeated_sales)).
Proof. apply (bool_decide_unpack _). vm_compute. exact I. Qed.

Lemma built_tables_are_closed_witness :
  ∃ tb,
    build_tables fixed_repr decimal_literal iso_date (clean_dir sample_sales)
    = Some tb ∧
    covered fixed_repr (sales_df tb) (customers_df tb) "customer_id" ∧
    covered fixed_repr (sales_df tb) (products_df tb) "product_id" ∧
    covered fixed_repr (sales_df tb) (stores_df tb) "store_id" ∧
    covered fixed_repr (sales_df tb) (campaigns_df tb) "campaign_id" ∧
    covered fixed_repr (sales_df tb) (methods_df tb) "payment_method_id".
Proof.
  destruct sample_tables_built as [tb E].
  exists tb. split; [exact E|].
  exact (built_tables_are_closed fixed_repr decimal_literal iso_date
           (clean_dir sample_sales) tb E).
Defined.

Lemma built_dimensions_have_the_schema_witness :
  ∃ tb,
    build_tables fixed_repr decimal_literal iso_date (clean_dir sample_sales)
    = Some tb ∧
    ∀ t df, (t, df) ∈ load_order tb → t ≠ "sales" →
            assoc t DDL_COLUMNS = Some (columns df).
Proof.
  destruct sample_tables_built as [tb E].
  exists tb. split; [exact E|].
  exact (built_dimensions_have_the_schema fixed_repr decimal_literal
           iso_date (clean_dir sample_sales) tb E).
Defined.

Lemma load_dw_fills_the_tables_witness :
  ∃ tb,
    build_tables fixed_repr decimal_literal iso_date (clean_dir sample_sales)
    = Some tb ∧
    (∀ t df, (t, df) ∈ load_order tb →
       (load_dw fixed_repr decimal_literal iso_date primary_key_accepts
          (clean_dir sample_sales) earlier_warehouse).2 !! t
       = Some (body df).*2) ∧
    [("dates", 2); ("customers", 2); ("products", 2); ("stores", 3);
     ("campaigns", 1); ("payment_methods", 3); ("sales", 3)]
    = (λ p, (p.1, length (body p.2))) <$> load_order tb.
Proof.
  apply (load_dw_fills_the_tables fixed_repr decimal_literal iso_date
           primary_key_accepts (clean_dir sample_sales) earlier_warehouse).
  rewrite <- sample_run_counts. apply surjective_pairing.
Defined.


Lemma load_dw_missing_file_witness :
  dir_without_products "products_data_clean.csv" = None ∧
  load_dw fixed_repr decimal_literal iso_date primary_key_accepts
    dir_without_products earlier_warehouse = (None, earlier_warehouse).
Proof.
  split; [done|].
  apply (load_dw_missing_file fixed_repr decimal_literal iso_date
           primary_key_accepts dir_without_products earlier_warehouse
           "products_data_clean.csv").
  - by apply (bool_decide_unpack _).
  - done.
Defined.


Lemma enforcer_fills_an_empty_dimension_witness :
  body no_stores = [] ∧
  ∃ D' ms,
    ensure_dim_covers_sales_keys fixed_repr one_store_facts no_stores
      "store_id" STORE_FILL = Some D' ∧
    column_cells D' "store_id" = Str <$> ms ∧
    StronglySorted str_le ms ∧ NoDup ms ∧
    ∀ m, m ∈ ms ↔
         ∃ v, v ∈ column_cells one_store_facts "store_id" ∧ isna v = false ∧
              astype_str fixed_repr v = m.
Proof.
  split; [done|].
  apply (enforcer_fills_an_empty_dimension fixed_repr one_store_facts no_stores
           "store_id" STORE_FILL).
  - by vm_compute.
  - done.
  - by apply (bool_decide_unpack _).
  - by apply (bool_decide_unpack _).
Defined.

